(** * The Bluetooth vendor-library shim, [system/hci/src/vendor.c]

    A shallow embedding of the shim that loads [libbt-vendor.so], forwards
    opcodes to it and relays its callbacks to the host stack, followed by the
    properties proved about it.

    The shim talks to code that is not its own at every step: the dynamic
    loader, the vendor library, the buffer allocator, the host callbacks and
    the logger.  Each such call is a node of a finite interaction tree
    ([prog]); the file-scope variables of vendor.c are threaded through the
    tree as a record ([globals]).  A tree is run against an arbitrary
    deterministic environment ([run]) and yields the observed calls with
    their results.

    Conventions of the model:
    - integers, enumeration values and addresses are [Z]; vendor.c does no
      arithmetic on them, it only compares them and passes them on, and the
      value an outside function returns is taken to be of its declared type;
    - [assert] is compiled in: a failed assertion aborts the run, and so
      does a read through a null pointer;
    - an outside function does not enter the shim while the call to it is in
      progress; entries into the shim come one after the other
      ([enter_all]). *)

From Stdlib Require Import ZArith String Bool Lia.
From stdpp Require Import base tactics option list.

Local Open Scope string_scope.
Local Open Scope Z_scope.
Local Open Scope list_scope.

(** ** Values *)

(** Object and function pointers are addresses; [NULL] is address zero. *)
Definition ptr := Z.
Definition NULL : ptr := 0.

(** [!p] on a pointer. *)
Definition is_null (p : ptr) : bool := p =? NULL.

(** ** Constants declared in headers that vendor.c includes

    [bt_vendor_lib.h] and [vendor.h] give the numeric values of the result
    code and of the opcodes.  vendor.c only names them, so they are taken as
    parameters. *)

Class bt_vendor_lib_h := {
  BT_VND_OP_RESULT_SUCCESS : Z;
  (** the value of [sizeof(lib_callbacks)] *)
  sizeof_bt_vendor_callbacks_t : Z
}.

Class vendor_h := {
  VENDOR_CONFIGURE_FIRMWARE : Z;
  VENDOR_CONFIGURE_SCO : Z;
  VENDOR_SET_LPM_MODE : Z;
  VENDOR_DO_EPILOG : Z
}.

(** Modelled from the spec: [vendor.h], which fixes the value of
    [VENDOR_DO_EPILOG], is missing.  The spec speaks of "a fixed table of
    seven callback slots"; the table has [VENDOR_DO_EPILOG + 1] slots, so the
    spec's value of the constant is six. *)
Definition spec_VENDOR_DO_EPILOG : Z := 6.

(** [dlopen] is always called with the flag [RTLD_NOW]. *)
Inductive dl_flag := RTLD_NOW.

Inductive log_priority := ANDROID_LOG_INFO | ANDROID_LOG_ERROR.

(** The functions of vendor.c whose address is handed to the vendor library. *)
Inductive lib_callback_fn :=
| fn_firmware_config_cb
| fn_sco_config_cb
| fn_low_power_mode_cb
| fn_sco_audiostate_cb
| fn_buffer_alloc_cb
| fn_buffer_free_cb
| fn_transmit_cb
| fn_epilog_cb.

#[export] Instance lib_callback_fn_eq_dec : EqDecision lib_callback_fn.
Proof. solve_decision. Defined.

(** [bt_vendor_callbacks_t], with one field per item of the initializer of
    [lib_callbacks] (vendor.c:183).  vendor.c names only the field [alloc]
    (vendor.c:61); the other field names follow the vendor ABI. *)
Record bt_vendor_callbacks_t := {
  size : Z;
  fwcfg_cb : lib_callback_fn;
  scocfg_cb : lib_callback_fn;
  lpm_cb : lib_callback_fn;
  audio_state_cb : lib_callback_fn;
  alloc : lib_callback_fn;
  dealloc : lib_callback_fn;
  xmit_cb : lib_callback_fn;
  epilog_cb_field : lib_callback_fn
}.

(** The function pointers of a callback table, in field order. *)
Definition table_callbacks (t : bt_vendor_callbacks_t) : list lib_callback_fn :=
  [fwcfg_cb t; scocfg_cb t; lpm_cb t; audio_state_cb t;
   alloc t; dealloc t; xmit_cb t; epilog_cb_field t].

(** What is formatted into a log line. *)
Inductive log_arg :=
| LStr (s : string)
| LInt (n : Z)
| LPtr (p : ptr)
| LFn (f : lib_callback_fn).

(** ** Calls that leave the shim *)

Inductive call :=
| Dlopen (filename : string) (flag : dl_flag)
| Dlsym (handle : ptr) (symbol : string)
| Dlclose (handle : ptr)
| Dlerror
| Log (prio : log_priority) (fmt : string) (args : list log_arg)
(** [iface->init(cbs, bdaddr)], [iface->cleanup()], [iface->op(opcode, param)] *)
| VendorInit (iface : ptr) (cbs : bt_vendor_callbacks_t) (bdaddr : ptr)
| VendorCleanup (iface : ptr)
| VendorOp (iface : ptr) (opcode : Z) (param : ptr)
(** [a->alloc(size)], [a->free(buffer)] *)
| AllocatorAlloc (a : ptr) (size : Z)
| AllocatorFree (a : ptr) (buffer : ptr)
(** a host callback of type [vendor_cb], called with a boolean *)
| HostCallback (f : ptr) (success : bool)
(** the host function of type [send_internal_command_cb] *)
| SendInternalCommand (f : ptr) (opcode : Z) (buffer : ptr) (callback : ptr).

(** An observed call: the call and the value it returned (for a [void]
    function, a value that nobody reads). *)
Definition obs : Type := call * Z.

(** Diagnostics: log lines, and [dlerror], which is only called to fill one. *)
Definition is_diagnostic (o : obs) : bool :=
  match o.1 with
  | Log _ _ _ | Dlerror => true
  | _ => false
  end.

(** The calls of a trace other than diagnostics. *)
Definition effects (tr : list obs) : list obs :=
  List.filter (λ o, negb (is_diagnostic o)) tr.

(** ** Interaction trees *)

(** [assert] aborts the process; indexing the callback table outside its
    bounds, and reading a member through a null pointer, have no defined
    behaviour, which the model treats as an abort too. *)
Inductive fault := AssertionFailed | OutOfBounds | NullDereference.

Inductive prog (A : Type) : Type :=
| Ret (a : A)
| Abort (f : fault)
| Vis (c : call) (k : Z → prog A).
Arguments Ret {A} a.
Arguments Abort {A} f.
Arguments Vis {A} c k.

Fixpoint prog_bind {A B} (f : A → prog B) (p : prog A) : prog B :=
  match p with
  | Ret a => f a
  | Abort e => Abort e
  | Vis c k => Vis c (λ r, prog_bind f (k r))
  end.

(** ** The file-scope variables of vendor.c (vendor.c:35-40) *)

Record globals := {
  allocator : ptr;
  callbacks : list ptr;
  send_internal_command_callback : ptr;
  lib_handle : ptr;
  lib_interface : ptr
}.

(** A computation of the shim: it reads and writes the variables and calls
    out. *)
Definition shim (A : Type) : Type := globals → prog (A * globals).

#[export] Instance shim_ret : MRet shim := λ A a g, Ret (a, g).
#[export] Instance shim_bind : MBind shim :=
  λ A B f m g, prog_bind (λ ag : A * globals, f ag.1 ag.2) (m g).

Definition read {A} (field : globals → A) : shim A := λ g, Ret (field g, g).
Definition write (upd : globals → globals) : shim unit := λ g, Ret (tt, upd g).
Definition perform (c : call) : shim Z := λ g, Vis c (λ r, Ret (r, g)).
Definition abort {A} (f : fault) : shim A := λ _, Abort f.

(** [assert(e)] *)
Definition assert (e : bool) : shim unit :=
  if e then mret tt else abort AssertionFailed.

(** Reading a member through [p], as [p->alloc] does.  The members of
    [lib_interface] are only read behind a null test or an assertion
    (vendor.c:56, 80, 91, 96); [allocator] is read unguarded. *)
Definition deref (p : ptr) : shim unit :=
  if is_null p then abort NullDereference else mret tt.

Definition set_allocator (v : ptr) (g : globals) : globals :=
  {| allocator := v; callbacks := callbacks g;
     send_internal_command_callback := send_internal_command_callback g;
     lib_handle := lib_handle g; lib_interface := lib_interface g |}.
Definition set_callbacks (v : list ptr) (g : globals) : globals :=
  {| allocator := allocator g; callbacks := v;
     send_internal_command_callback := send_internal_command_callback g;
     lib_handle := lib_handle g; lib_interface := lib_interface g |}.
Definition set_send_internal (v : ptr) (g : globals) : globals :=
  {| allocator := allocator g; callbacks := callbacks g;
     send_internal_command_callback := v;
     lib_handle := lib_handle g; lib_interface := lib_interface g |}.
Definition set_lib_handle (v : ptr) (g : globals) : globals :=
  {| allocator := allocator g; callbacks := callbacks g;
     send_internal_command_callback := send_internal_command_callback g;
     lib_handle := v; lib_interface := lib_interface g |}.
Definition set_lib_interface (v : ptr) (g : globals) : globals :=
  {| allocator := allocator g; callbacks := callbacks g;
     send_internal_command_callback := send_internal_command_callback g;
     lib_handle := lib_handle g; lib_interface := v |}.

(** [callbacks[opcode]] as an rvalue and as the target of an assignment. *)
Definition callbacks_get (opcode : Z) : shim ptr := λ g,
  if 0 <=? opcode then
    match callbacks g !! Z.to_nat opcode with
    | Some f => Ret (f, g)
    | None => Abort OutOfBounds
    end
  else Abort OutOfBounds.

Definition callbacks_set (opcode : Z) (f : ptr) : shim unit := λ g,
  if (0 <=? opcode) && (Z.to_nat opcode <? length (callbacks g))%nat then
    Ret (tt, set_callbacks (<[Z.to_nat opcode := f]> (callbacks g)) g)
  else Abort OutOfBounds.

(** ** vendor.c *)

Section Vendor.
Context `{bt_vendor_lib_h} `{vendor_h}.

Definition LAST_VENDOR_OPCODE_VALUE : Z := VENDOR_DO_EPILOG.

Definition VENDOR_LIBRARY_NAME : string := "libbt-vendor.so".
Definition VENDOR_LIBRARY_SYMBOL_NAME : string := "BLUETOOTH_VENDOR_LIB_INTERFACE".

(** vendor.c:183 *)
Definition lib_callbacks : bt_vendor_callbacks_t := {|
  size := sizeof_bt_vendor_callbacks_t;
  fwcfg_cb := fn_firmware_config_cb;
  scocfg_cb := fn_sco_config_cb;
  lpm_cb := fn_low_power_mode_cb;
  audio_state_cb := fn_sco_audiostate_cb;
  alloc := fn_buffer_alloc_cb;
  dealloc := fn_buffer_free_cb;
  xmit_cb := fn_transmit_cb;
  epilog_cb_field := fn_epilog_cb
|}.

(** Variables with static storage start out zeroed. *)
Definition initial_globals : globals := {|
  allocator := NULL;
  callbacks := replicate (Z.to_nat (LAST_VENDOR_OPCODE_VALUE + 1)) NULL;
  send_internal_command_callback := NULL;
  lib_handle := NULL;
  lib_interface := NULL
|}.

(** The code after the label [error] (vendor.c:71-76). *)
Definition vendor_open_error : shim bool :=
  write (set_lib_interface NULL);;
  h ← read lib_handle;
  (if is_null h then mret 0 else perform (Dlclose h));;
  write (set_lib_handle NULL);;
  mret false.

(** vendor.c:45 *)
Definition vendor_open (local_bdaddr buffer_allocator : ptr) : shim bool :=
  h0 ← read lib_handle;
  assert (h0 =? NULL);;
  write (set_allocator buffer_allocator);;
  h ← perform (Dlopen VENDOR_LIBRARY_NAME RTLD_NOW);
  write (set_lib_handle h);;
  h ← read lib_handle;
  if is_null h then
    e ← perform Dlerror;
    perform (Log ANDROID_LOG_ERROR "%s unable to open %s: %s"
               [LStr "vendor_open"; LStr VENDOR_LIBRARY_NAME; LPtr e]);;
    vendor_open_error
  else
    i ← perform (Dlsym h VENDOR_LIBRARY_SYMBOL_NAME);
    write (set_lib_interface i);;
    i ← read lib_interface;
    if is_null i then
      e ← perform Dlerror;
      perform (Log ANDROID_LOG_ERROR "%s unable to find symbol %s in %s: %s"
                 [LStr "vendor_open"; LStr VENDOR_LIBRARY_SYMBOL_NAME;
                  LStr VENDOR_LIBRARY_NAME; LPtr e]);;
      vendor_open_error
    else
      perform (Log ANDROID_LOG_INFO "alloc value %p" [LFn (alloc lib_callbacks)]);;
      status ← perform (VendorInit i lib_callbacks local_bdaddr);
      if status =? 0 then mret true
      else
        perform (Log ANDROID_LOG_ERROR "%s unable to initialize vendor library: %d"
                   [LStr "vendor_open"; LInt status]);;
        vendor_open_error.

(** vendor.c:79 *)
Definition vendor_close : shim unit :=
  i ← read lib_interface;
  (if is_null i then mret 0 else perform (VendorCleanup i));;
  h ← read lib_handle;
  (if is_null h then mret 0 else perform (Dlclose h));;
  write (set_lib_interface NULL);;
  write (set_lib_handle NULL).

(** vendor.c:90.  [opcode] is a [vendor_opcode_t], an enumeration, passed on
    as the integer it is. *)
Definition send_command (opcode : Z) (param : ptr) : shim Z :=
  i ← read lib_interface;
  assert (negb (i =? NULL));;
  perform (VendorOp i opcode param).

(** vendor.c:95 *)
Definition send_async_command (opcode : Z) (param : ptr) : shim Z :=
  i ← read lib_interface;
  assert (negb (i =? NULL));;
  perform (VendorOp i opcode param).

(** vendor.c:100 *)
Definition set_callback (opcode : Z) (callback : ptr) : shim unit :=
  callbacks_set opcode callback.

(** vendor.c:104 *)
Definition set_send_internal_command_callback (callback : ptr) : shim unit :=
  write (set_send_internal callback).

(** vendor.c:112 *)
Definition firmware_config_cb (result : Z) : shim unit :=
  perform (Log ANDROID_LOG_INFO "firmware callback" []);;
  callback ← callbacks_get VENDOR_CONFIGURE_FIRMWARE;
  assert (negb (callback =? NULL));;
  perform (HostCallback callback (result =? BT_VND_OP_RESULT_SUCCESS));;
  mret tt.

(** vendor.c:122 *)
Definition sco_config_cb (result : Z) : shim unit :=
  perform (Log ANDROID_LOG_INFO "%s" [LStr "sco_config_cb"]);;
  callback ← callbacks_get VENDOR_CONFIGURE_SCO;
  assert (negb (callback =? NULL));;
  perform (HostCallback callback (result =? BT_VND_OP_RESULT_SUCCESS));;
  mret tt.

(** vendor.c:131 *)
Definition low_power_mode_cb (result : Z) : shim unit :=
  perform (Log ANDROID_LOG_INFO "%s" [LStr "low_power_mode_cb"]);;
  callback ← callbacks_get VENDOR_SET_LPM_MODE;
  assert (negb (callback =? NULL));;
  perform (HostCallback callback (result =? BT_VND_OP_RESULT_SUCCESS));;
  mret tt.

(** vendor.c:149 *)
Definition sco_audiostate_cb (result : Z) : shim unit :=
  let status := if result =? BT_VND_OP_RESULT_SUCCESS then 0 else 1 in
  perform (Log ANDROID_LOG_INFO "sco_audiostate_cb(status: %d)" [LInt status]);;
  mret tt.

(** vendor.c:157 *)
Definition buffer_alloc_cb (size : Z) : shim ptr :=
  a ← read allocator;
  deref a;;
  perform (AllocatorAlloc a size).

(** vendor.c:163 *)
Definition buffer_free_cb (buffer : ptr) : shim unit :=
  a ← read allocator;
  deref a;;
  perform (AllocatorFree a buffer);;
  mret tt.

(** vendor.c:168 *)
Definition transmit_cb (opcode : Z) (buffer : ptr) (callback : ptr) : shim Z :=
  f ← read send_internal_command_callback;
  assert (negb (f =? NULL));;
  perform (SendInternalCommand f opcode buffer callback).

(** vendor.c:176 *)
Definition epilog_cb (result : Z) : shim unit :=
  perform (Log ANDROID_LOG_INFO "%s" [LStr "epilog_cb"]);;
  callback ← callbacks_get VENDOR_DO_EPILOG;
  assert (negb (callback =? NULL));;
  perform (HostCallback callback (result =? BT_VND_OP_RESULT_SUCCESS));;
  mret tt.

(** The body that each entry of [lib_callbacks] points to, applied to the
    argument words the vendor library passes; a result that is [void] is
    returned as zero. *)
Definition invoke (f : lib_callback_fn) (a0 a1 a2 : Z) : shim Z :=
  match f with
  | fn_firmware_config_cb => firmware_config_cb a0;; mret 0
  | fn_sco_config_cb => sco_config_cb a0;; mret 0
  | fn_low_power_mode_cb => low_power_mode_cb a0;; mret 0
  | fn_sco_audiostate_cb => sco_audiostate_cb a0;; mret 0
  | fn_buffer_alloc_cb => buffer_alloc_cb a0
  | fn_buffer_free_cb => buffer_free_cb a0;; mret 0
  | fn_transmit_cb => transmit_cb a0 a1 a2
  | fn_epilog_cb => epilog_cb a0;; mret 0
  end.

(** ** Entries into the shim

    The host stack enters through the six members of [interface]
    (vendor.c:195), the vendor library through the members of
    [lib_callbacks]. *)
Inductive entry :=
| Call_vendor_open (local_bdaddr buffer_allocator : ptr)
| Call_vendor_close
| Call_send_command (opcode : Z) (param : ptr)
| Call_send_async_command (opcode : Z) (param : ptr)
| Call_set_callback (opcode : Z) (callback : ptr)
| Call_set_send_internal_command_callback (callback : ptr)
| Call_lib_callback (f : lib_callback_fn) (a0 a1 a2 : Z).

(** One entry, its result dropped. *)
Definition enter (e : entry) : shim unit :=
  match e with
  | Call_vendor_open a b => vendor_open a b;; mret tt
  | Call_vendor_close => vendor_close
  | Call_send_command o p => send_command o p;; mret tt
  | Call_send_async_command o p => send_async_command o p;; mret tt
  | Call_set_callback o c => set_callback o c
  | Call_set_send_internal_command_callback c => set_send_internal_command_callback c
  | Call_lib_callback f a0 a1 a2 => invoke f a0 a1 a2;; mret tt
  end.

(** A sequence of entries, one after the other. *)
Fixpoint enter_all (es : list entry) : shim unit :=
  match es with
  | [] => mret tt
  | e :: es => enter e;; enter_all es
  end.

End Vendor.

(** Whether an entry is a member of [interface]. *)
Definition is_interface_entry (e : entry) : bool :=
  match e with
  | Call_lib_callback _ _ _ _ => false
  | _ => true
  end.

(** The allocator passed to the most recent [vendor_open] of a sequence
    ([NULL], the initial value of [allocator], when there is none). *)
Fixpoint last_open_allocator (es : list entry) (dflt : ptr) : ptr :=
  match es with
  | [] => dflt
  | Call_vendor_open _ a :: es => last_open_allocator es a
  | _ :: es => last_open_allocator es dflt
  end.

(** The function most recently registered with
    [set_send_internal_command_callback] in a sequence. *)
Fixpoint last_registered_sender (es : list entry) (dflt : ptr) : ptr :=
  match es with
  | [] => dflt
  | Call_set_send_internal_command_callback f :: es => last_registered_sender es f
  | _ :: es => last_registered_sender es dflt
  end.

Definition is_set_callback (e : entry) : bool :=
  match e with
  | Call_set_callback _ _ => true
  | _ => false
  end.

(** ** Running a tree against an environment *)

Inductive outcome (A : Type) : Type :=
| Returns (a : A)
| Aborts (f : fault).
Arguments Returns {A} a.
Arguments Aborts {A} f.

Section Run.
(** The environment: what is outside the shim is in some state [W] and
    answers each call with a value and a new state. *)
Context {W : Type} (respond : call → W → Z * W).

Fixpoint run {A} (p : prog A) (w : W) : outcome A * list obs * W :=
  match p with
  | Ret a => (Returns a, [], w)
  | Abort f => (Aborts f, [], w)
  | Vis c k =>
      let '(r, w1) := respond c w in
      let '(o, tr, w2) := run (k r) w1 in
      (o, (c, r) :: tr, w2)
  end.

End Run.

(** ** Library handles held, read off a trace

    A handle is held from the [dlopen] that returned it until it is passed to
    [dlclose]. *)

Fixpoint remove_first (h : ptr) (l : list ptr) : list ptr :=
  match l with
  | [] => []
  | x :: l => if x =? h then l else x :: remove_first h l
  end.

Definition track_handle (held : list ptr) (o : obs) : list ptr :=
  match o with
  | (Dlopen _ _, h) => if is_null h then held else h :: held
  | (Dlclose h, _) => remove_first h held
  | _ => held
  end.

Definition held_handles (tr : list obs) : list ptr :=
  fold_left track_handle tr [].


(** The host callbacks called in a trace, with their argument. *)
Definition host_callbacks (tr : list obs) : list (ptr * bool) :=
  omap (λ o : obs, match o.1 with HostCallback f b => Some (f, b) | _ => None end) tr.

(** A callback is registered for an opcode when its slot of the table holds
    a non-null pointer. *)
Definition registered (g : globals) (opcode : Z) (cb : ptr) : Prop :=
  0 ≤ opcode ∧ callbacks g !! Z.to_nat opcode = Some cb ∧ cb ≠ NULL.

(** The variables other than the callback table. *)
Definition other_state (g : globals) : ptr * ptr * ptr * ptr :=
  (allocator g, send_internal_command_callback g, lib_handle g, lib_interface g).

(** The parts of a run. *)
Definition outcome_of {A W} (x : outcome A * list obs * W) : outcome A := x.1.1.
Definition trace_of {A W} (x : outcome A * list obs * W) : list obs := x.1.2.

(** The variables after a run that returned. *)
Definition final_globals {A W} (x : outcome (A * globals) * list obs * W)
  : option globals :=
  match outcome_of x with
  | Returns (_, g) => Some g
  | Aborts _ => None
  end.

(** The run that makes the one call [c], returns [ret] of its value, and
    ends there. *)
Definition single_call {A W} (respond : call → W → Z * W) (c : call)
    (ret : Z → A) (w : W) : outcome A * list obs * W :=
  (Returns (ret (respond c w).1), [(c, (respond c w).1)], (respond c w).2).

(** The handle the shim believes it holds. *)
Definition handles_of (g : globals) : list ptr :=
  if is_null (lib_handle g) then [] else [lib_handle g].

(** What holds after a sequence of entries that returned ([Some g'], the
    variables it left) or aborted ([None]), having made the calls [tr] from
    the variables [g]. *)
Definition entries_effect (es : list entry) (g : globals) (tr : list obs)
    (after : option globals) : Prop :=
  match after with
  | Some g' =>
      fold_left track_handle tr (handles_of g) = handles_of g' ∧
      length (callbacks g') = length (callbacks g) ∧
      allocator g' = last_open_allocator es (allocator g) ∧
      send_internal_command_callback g' =
        last_registered_sender es (send_internal_command_callback g) ∧
      (existsb is_set_callback es = false → callbacks g' = callbacks g)
  | None => ∃ g1, fold_left track_handle tr (handles_of g) = handles_of g1
  end.

(** ** The ways through [vendor_open]

    One constructor per path of vendor.c:45-77: the value returned, the
    handle and the interface left in the variables, and the calls made,
    diagnostics apart. *)
Section OpenBehaviour.
Context `{bt_vendor_lib_h}.

Inductive open_behaviour (bdaddr : ptr) : bool → ptr → ptr → list obs → Prop :=
| open_no_library :
    open_behaviour bdaddr false NULL NULL
      [(Dlopen VENDOR_LIBRARY_NAME RTLD_NOW, NULL)]
| open_no_symbol (h d : Z) :
    h ≠ NULL →
    open_behaviour bdaddr false NULL NULL
      [(Dlopen VENDOR_LIBRARY_NAME RTLD_NOW, h);
       (Dlsym h VENDOR_LIBRARY_SYMBOL_NAME, NULL);
       (Dlclose h, d)]
| open_init_failed (h i status d : Z) :
    h ≠ NULL → i ≠ NULL → status ≠ 0 →
    open_behaviour bdaddr false NULL NULL
      [(Dlopen VENDOR_LIBRARY_NAME RTLD_NOW, h);
       (Dlsym h VENDOR_LIBRARY_SYMBOL_NAME, i);
       (VendorInit i lib_callbacks bdaddr, status);
       (Dlclose h, d)]
| open_succeeded (h i : Z) :
    h ≠ NULL → i ≠ NULL →
    open_behaviour bdaddr true h i
      [(Dlopen VENDOR_LIBRARY_NAME RTLD_NOW, h);
       (Dlsym h VENDOR_LIBRARY_SYMBOL_NAME, i);
       (VendorInit i lib_callbacks bdaddr, 0)].

End OpenBehaviour.

(** ** Registrations, read off a sequence of entries *)

(** The callback most recently stored by [set_callback] for [opcode] in a
    sequence; [dflt] when the sequence has none. *)
Fixpoint last_set_callback (es : list entry) (opcode : Z) (dflt : ptr) : ptr :=
  match es with
  | [] => dflt
  | Call_set_callback o c :: es =>
      last_set_callback es opcode (if o =? opcode then c else dflt)
  | _ :: es => last_set_callback es opcode dflt
  end.

(** The slot of the table that a callback of [lib_callbacks] reads
    (vendor.c:114, 124, 133, 178); the other callbacks read none. *)
Section Relays.
Context `{vendor_h}.

Definition relay_of (f : lib_callback_fn) : option Z :=
  match f with
  | fn_firmware_config_cb => Some VENDOR_CONFIGURE_FIRMWARE
  | fn_sco_config_cb => Some VENDOR_CONFIGURE_SCO
  | fn_low_power_mode_cb => Some VENDOR_SET_LPM_MODE
  | fn_epilog_cb => Some VENDOR_DO_EPILOG
  | _ => None
  end.

End Relays.

(** The entries whose code assigns to a file-scope variable. *)
Definition writes_variables (e : entry) : bool :=
  match e with
  | Call_vendor_open _ _ | Call_vendor_close
  | Call_set_callback _ _ | Call_set_send_internal_command_callback _ => true
  | _ => false
  end.

(** ** The order in which a vendor library is to be used

    The loader and the vendor ABI expect: [dlopen], then [dlsym] on the
    handle, then [init] on the interface, then any number of [op], then
    [cleanup], then [dlclose]; a handle whose symbol is missing or whose
    [init] failed is closed without [cleanup]. *)
Inductive lib_state :=
| Unloaded
| Loaded (h : ptr)
| Resolved (h i : ptr)
| Ready (h i : ptr)
| Closing (h : ptr).

(** One observed call, seen from a state; [None] when the call is out of
    order, goes to another handle or interface than the current one, or goes
    through a null function pointer. *)
Definition protocol_step (s : lib_state) (o : obs) : option lib_state :=
  match o.1, s with
  | Log _ _ _, _ | Dlerror, _ => Some s
  | AllocatorAlloc _ _, _ | AllocatorFree _ _, _ => Some s
  | HostCallback f _, _ => if is_null f then None else Some s
  | SendInternalCommand f _ _ _, _ => if is_null f then None else Some s
  | Dlopen name _, Unloaded =>
      if String.eqb name "libbt-vendor.so"
      then Some (if is_null o.2 then Unloaded else Loaded o.2)
      else None
  | Dlsym h sym, Loaded h0 =>
      if (h =? h0) && String.eqb sym "BLUETOOTH_VENDOR_LIB_INTERFACE"
      then Some (if is_null o.2 then Closing h0 else Resolved h0 o.2)
      else None
  | VendorInit i _ _, Resolved h0 i0 =>
      if i =? i0 then Some (if o.2 =? 0 then Ready h0 i0 else Closing h0) else None
  | VendorOp i _ _, Ready h0 i0 => if i =? i0 then Some s else None
  | VendorCleanup i, Ready h0 i0 => if i =? i0 then Some (Closing h0) else None
  | Dlclose h, Closing h0 => if h =? h0 then Some Unloaded else None
  | _, _ => None
  end.

Fixpoint protocol_run (s : lib_state) (tr : list obs) : option lib_state :=
  match tr with
  | [] => Some s
  | o :: tr =>
      match protocol_step s o with
      | Some s' => protocol_run s' tr
      | None => None
      end
  end.

(** Where the variables say the library is, between two entries. *)
Definition state_of (g : globals) : lib_state :=
  if is_null (lib_handle g) then Unloaded else Ready (lib_handle g) (lib_interface g).

(** [lib_handle] and [lib_interface] are null together. *)
Definition consistent (g : globals) : Prop :=
  lib_handle g = NULL ↔ lib_interface g = NULL.

(** What the calls [tr] of a sequence of entries started with the variables
    [g] are to the order of use: in order from the state [g] stands for, and
    ending in the state the variables left stand for. *)
Definition entries_protocol (g : globals) (tr : list obs)
    (after : option globals) : Prop :=
  match after with
  | Some g' => protocol_run (state_of g) tr = Some (state_of g') ∧ consistent g'
  | None => ∃ g1, protocol_run (state_of g) tr = Some (state_of g1)
  end.

(** ** Diagnostics of a trace *)

Definition error_lines (tr : list obs) : list obs :=
  List.filter
    (λ o : obs, match o.1 with Log ANDROID_LOG_ERROR _ _ => true | _ => false end) tr.

Definition dlerror_calls (tr : list obs) : list obs :=
  List.filter (λ o : obs, match o.1 with Dlerror => true | _ => false end) tr.

Definition init_calls (tr : list obs) : list obs :=
  List.filter (λ o : obs, match o.1 with VendorInit _ _ _ => true | _ => false end) tr.

(** ** Concrete header values and environments, for examples *)

Definition example_bt_vendor_lib_h : bt_vendor_lib_h :=
  {| BT_VND_OP_RESULT_SUCCESS := 0; sizeof_bt_vendor_callbacks_t := 72 |}.

(** Opcode values for which the table has the spec's seven slots. *)
Definition seven_slot_vendor_h : vendor_h :=
  {| VENDOR_CONFIGURE_FIRMWARE := 1; VENDOR_CONFIGURE_SCO := 2;
     VENDOR_SET_LPM_MODE := 4; VENDOR_DO_EPILOG := spec_VENDOR_DO_EPILOG |}.

(** An environment in which every step of loading succeeds.  Its state
    counts the calls made so far. *)
Definition friendly (c : call) (n : nat) : Z * nat :=
  (match c with
   | Dlopen _ _ => 4096
   | Dlsym _ _ => 8192
   | AllocatorAlloc _ _ => 12288 + Z.of_nat n
   | VendorOp _ opcode _ => opcode + 1
   | SendInternalCommand _ _ _ _ => 1
   | _ => 0
   end, S n).

(** An environment whose library lacks the interface symbol. *)
Definition no_symbol (c : call) (n : nat) : Z * nat :=
  (match c with
   | Dlopen _ _ => 4096
   | _ => 0
   end, S n).


(** An environment whose library has the symbol but fails to initialise. *)
Definition init_fails (c : call) (n : nat) : Z * nat :=
  (match c with
   | Dlopen _ _ => 4096
   | Dlsym _ _ => 8192
   | VendorInit _ _ _ => -1
   | _ => 0
   end, S n).

(** Variables with every slot of a seven-slot table registered and a library
    open. *)
Definition busy_globals : globals :=
  {| allocator := 500;
     callbacks := [101; 102; 103; 104; 105; 106; 107];
     send_internal_command_callback := 600;
     lib_handle := 4096;
     lib_interface := 8192 |}.

(** Variables after a successful [vendor_open] with allocator 7 in the
    environment [friendly], and a sender registered, but no callback. *)
Definition loaded_globals : globals :=
  {| allocator := 7;
     callbacks := replicate 7 NULL;
     send_internal_command_callback := 600;
     lib_handle := 4096;
     lib_interface := 8192 |}.

(** * Properties *)

(** ** Stepping through a run *)

Ltac shim_unfold :=
  unfold assert, deref, abort, read, write, perform, callbacks_get,
    callbacks_set, is_null in *;
  unfold mbind, shim_bind, mret, shim_ret in *.

(** Name the environment's answer to the next call. *)
Ltac answer :=
  match goal with
  | |- context [?respond ?c ?w] =>
      match type of (respond c w) with
      | (Z * _)%type =>
          let r := fresh "r" in
          let w' := fresh "w" in
          let E := fresh "E" in
          destruct (respond c w) as [r w'] eqn:E
      end
  end.

Ltac branch :=
  match goal with
  | |- context [?x =? ?x] => rewrite (Z.eqb_refl x)
  | E : ?b = _ |- context [if ?b then _ else _] => rewrite E
  | |- context [if ?b then _ else _] => destruct b eqn:?
  | |- context [match ?l !! ?i with _ => _ end] => destruct (l !! i) eqn:?
  end.

Ltac shim_run := repeat (simpl; first [answer | branch]).

Section RunFacts.
Context {W : Type} (respond : call → W → Z * W).

Lemma run_prog_bind {A B} (f : A → prog B) (p : prog A) (w : W) :
  run respond (prog_bind f p) w =
    match run respond p w with
    | (Returns a, tr, w1) =>
        let '(o, tr2, w2) := run respond (f a) w1 in (o, tr ++ tr2, w2)
    | (Aborts e, tr, w1) => (Aborts e, tr, w1)
    end.
Proof.
  revert w. induction p as [a | e | c k IH]; intros w; simpl.
  - by destruct (run respond (f a) w) as [[o tr] w2].
  - done.
  - destruct (respond c w) as [r w1]. rewrite IH.
    destruct (run respond (k r) w1) as [[[a | e] tr] w2]; [|done].
    by destruct (run respond (f a) w2) as [[o tr2] w3].
Qed.

Lemma run_shim_bind {A B} (m : shim A) (f : A → shim B) (g : globals) (w : W) :
  run respond ((m ≫= f) g) w =
    match run respond (m g) w with
    | (Returns (a, g1), tr, w1) =>
        let '(o, tr2, w2) := run respond (f a g1) w1 in (o, tr ++ tr2, w2)
    | (Aborts e, tr, w1) => (Aborts e, tr, w1)
    end.
Proof.
  unfold mbind, shim_bind. rewrite run_prog_bind.
  by destruct (run respond (m g) w) as [[[[a g1] | e] tr] w1].
Qed.

End RunFacts.

Lemma handles_of_length (g : globals) : (length (handles_of g) ≤ 1)%nat.
Proof. unfold handles_of. destruct (is_null _); simpl; lia. Qed.

(** ** [vendor_open], path by path *)

Section OpenFacts.
Context `{bt_vendor_lib_h} `{vendor_h} {W : Type} (respond : call → W → Z * W).

Lemma vendor_open_asserts (bdaddr al : ptr) (g : globals) (w : W) :
  lib_handle g ≠ NULL →
  run respond (vendor_open bdaddr al g) w = (Aborts AssertionFailed, [], w).
Proof.
  intros Hh. apply Z.eqb_neq in Hh.
  unfold vendor_open. shim_unfold. simpl. by rewrite Hh.
Qed.

Lemma vendor_open_run (bdaddr al : ptr) (g : globals) (w : W) :
  lib_handle g = NULL →
  ∃ b g' tr w',
    run respond (vendor_open bdaddr al g) w = (Returns (b, g'), tr, w') ∧
    open_behaviour bdaddr b (lib_handle g') (lib_interface g') (effects tr) ∧
    allocator g' = al ∧
    callbacks g' = callbacks g ∧
    send_internal_command_callback g' = send_internal_command_callback g.
Proof.
  intros Hh. unfold vendor_open, vendor_open_error. shim_unfold. simpl.
  rewrite Hh. shim_run;
    repeat match goal with
           | E : (_ =? _) = true |- _ => apply Z.eqb_eq in E; subst
           | E : (_ =? _) = false |- _ => apply Z.eqb_neq in E
           end;
    (do 4 eexists; split; [reflexivity |]; simpl;
     split; [by constructor | done]).
Qed.

End OpenFacts.


Section OpenClaims.
Context `{bt_vendor_lib_h} `{vendor_h} {W : Type} (respond : call → W → Z * W).

(** C1.  Called with no library open, [vendor_open] returns, and its calls,
    log lines and [dlerror] apart, follow one of the four paths of
    [open_behaviour]: [dlopen] of "libbt-vendor.so", then [dlsym] of
    "BLUETOOTH_VENDOR_LIB_INTERFACE" on the handle, then [init] of the
    resolved interface with [lib_callbacks] and the local address, stopping at
    the first step that fails (and closing the handle if there is one).  It
    returns true if and only if these three calls were made and succeeded: a
    non-null handle, a non-null interface, and status zero. *)
Theorem vendor_open_three_steps (bdaddr al : ptr) (g : globals) (w : W) :
  lib_handle g = NULL →
  ∃ b g' tr w',
    run respond (vendor_open bdaddr al g) w = (Returns (b, g'), tr, w') ∧
    open_behaviour bdaddr b (lib_handle g') (lib_interface g') (effects tr) ∧
    (b = true ↔
     ∃ h i, h ≠ NULL ∧ i ≠ NULL ∧
       effects tr =
         [(Dlopen "libbt-vendor.so" RTLD_NOW, h);
          (Dlsym h "BLUETOOTH_VENDOR_LIB_INTERFACE", i);
          (VendorInit i lib_callbacks bdaddr, 0)]).
Proof.
  intros Hh.
  destruct (vendor_open_run respond bdaddr al g w Hh)
    as (b & g' & tr & w' & Hrun & Hbeh & _).
  exists b, g', tr, w'. split; [done |]. split; [done |].
  split.
  - intros ->. inversion Hbeh; subst. eauto.
  - intros (h & i & Hh' & Hi & Heff). rewrite Heff in Hbeh.
    inversion Hbeh; subst; congruence.
Qed.


End OpenClaims.

(** ** What one entry does to the variables and to the handles held *)

Lemma track_handle_effects (tr : list obs) (held : list ptr) :
  fold_left track_handle (effects tr) held = fold_left track_handle tr held.
Proof.
  revert held. induction tr as [| [c r] tr IH]; intros held; [done |].
  destruct c; simpl; by rewrite ?IH.
Qed.

Ltac entry_run :=
  unfold entries_effect, enter, invoke, final_globals, trace_of, outcome_of,
    handles_of;
  unfold vendor_close, send_command, send_async_command, set_callback,
    set_send_internal_command_callback, firmware_config_cb, sco_config_cb,
    low_power_mode_cb, sco_audiostate_cb, buffer_alloc_cb, buffer_free_cb,
    transmit_cb, epilog_cb;
  shim_unfold; shim_run; simpl.

Section EntryFacts.
Context `{bt_vendor_lib_h} `{vendor_h} {W : Type} (respond : call → W → Z * W).

Lemma vendor_open_effect (bdaddr al : ptr) (g : globals) (w : W) :
  let x := run respond (enter (Call_vendor_open bdaddr al) g) w in
  entries_effect [Call_vendor_open bdaddr al] g (trace_of x) (final_globals x).
Proof.
  simpl. rewrite run_shim_bind.
  destruct (decide (lib_handle g = NULL)) as [Hh | Hh].
  - destruct (vendor_open_run respond bdaddr al g w Hh)
      as (b & g' & tr & w' & -> & Hbeh & Hal & Hcb & Hsend).
    simpl. unfold final_globals, trace_of, outcome_of. simpl.
    rewrite app_nil_r, <- track_handle_effects.
    unfold handles_of at 1. unfold is_null. rewrite Hh. simpl.
    split; [| by rewrite Hcb].
    unfold handles_of, is_null.
    inversion Hbeh as [ | h d Hn | h i st d Hn Hi Hst | h i Hn Hi];
      subst; simpl; try done;
      apply Z.eqb_neq in Hn; unfold is_null; rewrite Hn; simpl;
      by rewrite ?Z.eqb_refl.
  - rewrite (vendor_open_asserts respond bdaddr al g w Hh). by exists g.
Qed.

Lemma enter_effect (e : entry) (g : globals) (w : W) :
  let x := run respond (enter e g) w in
  entries_effect [e] g (trace_of x) (final_globals x).
Proof.
  destruct e as [bdaddr al | | o p | o p | o c | c | f a0 a1 a2].
  - apply vendor_open_effect.
  - entry_run; done.
  - entry_run; first [done | exists g; by repeat branch].
  - entry_run; first [done | exists g; by repeat branch].
  - entry_run; first [by rewrite ?length_insert | exists g; by repeat branch].
  - done.
  - destruct f; entry_run; first [done | exists g; by repeat branch].
Qed.

Lemma last_open_allocator_cons (e : entry) (es : list entry) (dflt : ptr) :
  last_open_allocator (e :: es) dflt =
    last_open_allocator es (last_open_allocator [e] dflt).
Proof. by destruct e. Qed.

Lemma last_registered_sender_cons (e : entry) (es : list entry) (dflt : ptr) :
  last_registered_sender (e :: es) dflt =
    last_registered_sender es (last_registered_sender [e] dflt).
Proof. by destruct e. Qed.

Lemma enter_all_effect (es : list entry) (g : globals) (w : W) :
  let x := run respond (enter_all es g) w in
  entries_effect es g (trace_of x) (final_globals x).
Proof.
  revert g w. induction es as [| e es IH]; intros g w; [done |].
  unfold entries_effect.
  rewrite last_open_allocator_cons, last_registered_sender_cons.
  change (enter_all (e :: es) g) with ((enter e ≫= λ _, enter_all es) g).
  rewrite run_shim_bind.
  pose proof (enter_effect e g w) as He.
  destruct (run respond (enter e g) w) as [[[[u g1] | f] tr1] w1];
    [| exact He].
  destruct He as (Hheld & Hlen & Hal & Hsend & Hcb).
  specialize (IH g1 w1).
  destruct (run respond (enter_all es g1) w1) as [[[[u2 g2] | f] tr2] w2];
    unfold final_globals, trace_of, outcome_of in *; cbn [fst snd] in *;
    rewrite fold_left_app, Hheld.
  - destruct IH as (Hheld2 & Hlen2 & Hal2 & Hsend2 & Hcb2).
    rewrite Hheld2, Hlen2, Hlen, Hal2, Hal, Hsend2, Hsend.
    repeat split; try done.
    intros [He1 He2]%orb_false_elim. rewrite Hcb2 by done. apply Hcb.
    simpl. by rewrite He1.
  - exact IH.
Qed.

End EntryFacts.

(** ** Closing, forwarding and delegating *)

Section InterfaceClaims.
Context `{bt_vendor_lib_h} `{vendor_h} {W : Type} (respond : call → W → Z * W).

Lemma vendor_close_run (g : globals) (w : W) :
  ∃ tr w',
    run respond (vendor_close g) w =
      (Returns (tt, set_lib_handle NULL (set_lib_interface NULL g)), tr, w') ∧
    fold_left track_handle tr (handles_of g) = [].
Proof.
  unfold vendor_close, handles_of. shim_unfold.
  shim_run; (eexists _, _; split; [reflexivity |]; simpl;
             by rewrite ?Z.eqb_refl).
Qed.

Lemma vendor_close_when_closed (g : globals) (w : W) :
  lib_interface g = NULL → lib_handle g = NULL →
  run respond (vendor_close g) w = (Returns (tt, g), [], w).
Proof.
  intros Hi Hh. unfold vendor_close. shim_unfold. simpl.
  rewrite Hi. simpl. rewrite Hh. simpl. destruct g; simpl in *. by subst.
Qed.

(** C3.  Started from the zeroed variables, after any sequence of entries
    into the shim (any interleaving of [vendor_open] and [vendor_close] among
    them; a [vendor_open] made while a library is open stops the run at its
    assertion) at most one library handle is held, and when the sequence
    returned it is the one in [lib_handle].  [vendor_close] always returns,
    leaves [lib_handle] and [lib_interface] null, and gives up the handle
    that was held. *)
Theorem at_most_one_library_loaded (es : list entry) (w : W) :
  (length (held_handles (trace_of (run respond (enter_all es initial_globals) w))) ≤ 1)%nat ∧
  (∀ g, final_globals (run respond (enter_all es initial_globals) w) = Some g →
        held_handles (trace_of (run respond (enter_all es initial_globals) w))
          = handles_of g) ∧
  (∀ (g : globals) (w0 : W), ∃ g' tr w',
      run respond (vendor_close g) w0 = (Returns (tt, g'), tr, w') ∧
      lib_handle g' = NULL ∧ lib_interface g' = NULL ∧
      fold_left track_handle tr (handles_of g) = []).
Proof.
  pose proof (enter_all_effect respond es initial_globals w) as Hes.
  simpl in Hes. unfold held_handles.
  change (@nil ptr) with (handles_of initial_globals) at 1 2.
  split; [| split].
  - destruct (final_globals _) as [g |]; simpl in Hes.
    + destruct Hes as (-> & _). apply handles_of_length.
    + destruct Hes as (g1 & ->). apply handles_of_length.
  - intros g Hg. rewrite Hg in Hes. by destruct Hes as (-> & _).
  - intros g w0. destruct (vendor_close_run g w0) as (tr & w' & Hrun & Hheld).
    by eexists _, tr, w'.
Qed.

(** C10.  With no library open [vendor_close] makes no call and changes no
    variable; hence closing twice is closing once: the same variables, the
    same calls, the same environment. *)
Theorem vendor_close_idempotent (g : globals) (w : W) :
  (lib_interface g = NULL → lib_handle g = NULL →
   run respond (vendor_close g) w = (Returns (tt, g), [], w)) ∧
  run respond ((vendor_close;; vendor_close) g) w = run respond (vendor_close g) w.
Proof.
  split; [apply vendor_close_when_closed |].
  rewrite run_shim_bind.
  destruct (vendor_close_run g w) as (tr & w' & -> & _).
  rewrite vendor_close_when_closed by done.
  by rewrite app_nil_r.
Qed.

(** C4.  With a library open, [send_command] and [send_async_command] make
    the single call [lib_interface->op(opcode, param)], with the opcode and
    the parameter they were given, return the value it returns, and leave the
    variables alone. *)
Theorem send_command_passes_through (opcode : Z) (param : ptr) (g : globals) (w : W) :
  lib_interface g ≠ NULL →
  run respond (send_command opcode param g) w =
    single_call respond (VendorOp (lib_interface g) opcode param) (λ r, (r, g)) w ∧
  run respond (send_async_command opcode param g) w =
    single_call respond (VendorOp (lib_interface g) opcode param) (λ r, (r, g)) w.
Proof.
  intros Hi%Z.eqb_neq. unfold send_command, send_async_command, single_call.
  shim_unfold. simpl. rewrite Hi. simpl.
  by destruct (respond _ w) as [r w1].
Qed.

(** C7, amended.  After any sequence of entries that returned: when the
    allocator [a] given to the most recent [vendor_open] is not null,
    [buffer_alloc_cb] makes the single call [a->alloc(size)] and returns its
    value, and [buffer_free_cb] makes the single call [a->free(buffer)];
    when a function [f] was registered with
    [set_send_internal_command_callback], [transmit_cb] makes the single call
    [f(opcode, buffer, callback)] and returns its value.  None of the three
    changes a variable. *)
Theorem buffers_and_transmit_delegated (es : list entry) (w0 : W) (g : globals) :
  final_globals (run respond (enter_all es initial_globals) w0) = Some g →
  ∀ w : W,
    (last_open_allocator es NULL ≠ NULL →
     (∀ size,
        run respond (buffer_alloc_cb size g) w =
          single_call respond (AllocatorAlloc (last_open_allocator es NULL) size)
            (λ r, (r, g)) w) ∧
     (∀ buffer,
        run respond (buffer_free_cb buffer g) w =
          single_call respond (AllocatorFree (last_open_allocator es NULL) buffer)
            (λ _, (tt, g)) w)) ∧
    (∀ opcode buffer callback,
       last_registered_sender es NULL ≠ NULL →
       run respond (transmit_cb opcode buffer callback g) w =
         single_call respond
           (SendInternalCommand (last_registered_sender es NULL) opcode buffer callback)
           (λ r, (r, g)) w).
Proof.
  intros Hg w.
  pose proof (enter_all_effect respond es initial_globals w0) as Hes.
  simpl in Hes. rewrite Hg in Hes.
  destruct Hes as (_ & _ & Hal & Hsend & _). simpl in Hal, Hsend.
  rewrite <- Hal, <- Hsend. unfold single_call.
  split; [intros Ha%Z.eqb_neq; split |].
  - intros size. unfold buffer_alloc_cb. shim_unfold. simpl. rewrite Ha. simpl.
    by destruct (respond _ w) as [r w1].
  - intros buffer. unfold buffer_free_cb. shim_unfold. simpl. rewrite Ha. simpl.
    by destruct (respond _ w) as [r w1].
  - intros opcode buffer callback Hf%Z.eqb_neq.
    unfold transmit_cb. shim_unfold. simpl. rewrite Hf. simpl.
    by destruct (respond _ w) as [r w1].
Qed.

End InterfaceClaims.

(** ** Callbacks relayed to the host stack *)

(** A relaying callback whose slot is registered: unfold it, read the slot,
    pass the assertion, and name the answers of the two calls. *)
Ltac relay_run Hreg :=
  destruct Hreg as (Hpos%Z.leb_le & Hslot & Hcb%Z.eqb_neq);
  shim_unfold; simpl; answer; simpl;
  rewrite Hpos, Hslot; simpl; rewrite Hcb; simpl; answer; simpl;
  by eexists _, _.

Section RelayFacts.
Context `{bt_vendor_lib_h} `{vendor_h} {W : Type} (respond : call → W → Z * W).

Lemma firmware_config_cb_run (result : Z) (g : globals) (w : W) (cb : ptr) :
  registered g VENDOR_CONFIGURE_FIRMWARE cb →
  ∃ tr w',
    run respond (firmware_config_cb result g) w = (Returns (tt, g), tr, w') ∧
    host_callbacks tr = [(cb, result =? BT_VND_OP_RESULT_SUCCESS)].
Proof. intros Hreg. unfold firmware_config_cb. relay_run Hreg. Qed.

Lemma sco_config_cb_run (result : Z) (g : globals) (w : W) (cb : ptr) :
  registered g VENDOR_CONFIGURE_SCO cb →
  ∃ tr w',
    run respond (sco_config_cb result g) w = (Returns (tt, g), tr, w') ∧
    host_callbacks tr = [(cb, result =? BT_VND_OP_RESULT_SUCCESS)].
Proof. intros Hreg. unfold sco_config_cb. relay_run Hreg. Qed.

Lemma low_power_mode_cb_run (result : Z) (g : globals) (w : W) (cb : ptr) :
  registered g VENDOR_SET_LPM_MODE cb →
  ∃ tr w',
    run respond (low_power_mode_cb result g) w = (Returns (tt, g), tr, w') ∧
    host_callbacks tr = [(cb, result =? BT_VND_OP_RESULT_SUCCESS)].
Proof. intros Hreg. unfold low_power_mode_cb. relay_run Hreg. Qed.

Lemma epilog_cb_run (result : Z) (g : globals) (w : W) (cb : ptr) :
  registered g VENDOR_DO_EPILOG cb →
  ∃ tr w',
    run respond (epilog_cb result g) w = (Returns (tt, g), tr, w') ∧
    host_callbacks tr = [(cb, result =? BT_VND_OP_RESULT_SUCCESS)].
Proof. intros Hreg. unfold epilog_cb. relay_run Hreg. Qed.

Lemma sco_audiostate_cb_run (result : Z) (g : globals) (w : W) :
  ∃ tr w',
    run respond (sco_audiostate_cb result g) w = (Returns (tt, g), tr, w') ∧
    host_callbacks tr = [] ∧
    tr.*1 = [Log ANDROID_LOG_INFO "sco_audiostate_cb(status: %d)"
               [LInt (if result =? BT_VND_OP_RESULT_SUCCESS then 0 else 1)]].
Proof.
  unfold sco_audiostate_cb. shim_unfold. simpl. answer. by eexists _, _.
Qed.

(** Registering with [set_callback] is what fills a slot. *)
Lemma set_callback_registers (opcode : Z) (cb : ptr) (g : globals) (w : W) :
  0 ≤ opcode < Z.of_nat (length (callbacks g)) →
  ∃ g',
    run respond (set_callback opcode cb g) w = (Returns (tt, g'), [], w) ∧
    callbacks g' = <[Z.to_nat opcode := cb]> (callbacks g) ∧
    other_state g' = other_state g ∧
    (cb ≠ NULL → registered g' opcode cb).
Proof.
  intros [Hlo Hhi]. unfold set_callback, callbacks_set.
  assert (Z.to_nat opcode < length (callbacks g))%nat as Hlt by lia.
  rewrite (proj2 (Z.leb_le _ _) Hlo), (proj2 (Nat.ltb_lt _ _) Hlt). simpl.
  eexists. split; [done |]. split; [done |]. split; [done |].
  intros Hcb. split; [done |]. split; [| done].
  simpl. by apply list_lookup_insert_eq.
Qed.

(** C2, amended.  The callbacks for firmware configuration, SCO
    configuration, low-power mode and epilog each call, exactly once, the
    host callback registered for their opcode, and call no other host
    callback.  The callback for the SCO audio state calls no host callback:
    it only writes a log line, with status 0 for success and 1 otherwise. *)
Theorem callbacks_forwarded_to_host (result : Z) (g : globals) (w : W) :
  (∀ cb, registered g VENDOR_CONFIGURE_FIRMWARE cb →
     ∃ tr w', run respond (firmware_config_cb result g) w = (Returns (tt, g), tr, w') ∧
              (host_callbacks tr).*1 = [cb]) ∧
  (∀ cb, registered g VENDOR_CONFIGURE_SCO cb →
     ∃ tr w', run respond (sco_config_cb result g) w = (Returns (tt, g), tr, w') ∧
              (host_callbacks tr).*1 = [cb]) ∧
  (∀ cb, registered g VENDOR_SET_LPM_MODE cb →
     ∃ tr w', run respond (low_power_mode_cb result g) w = (Returns (tt, g), tr, w') ∧
              (host_callbacks tr).*1 = [cb]) ∧
  (∀ cb, registered g VENDOR_DO_EPILOG cb →
     ∃ tr w', run respond (epilog_cb result g) w = (Returns (tt, g), tr, w') ∧
              (host_callbacks tr).*1 = [cb]) ∧
  (∃ tr w', run respond (sco_audiostate_cb result g) w = (Returns (tt, g), tr, w') ∧
            host_callbacks tr = [] ∧
            tr.*1 = [Log ANDROID_LOG_INFO "sco_audiostate_cb(status: %d)"
                       [LInt (if result =? BT_VND_OP_RESULT_SUCCESS then 0 else 1)]]).
Proof.
  repeat split.
  - intros cb Hreg.
    destruct (firmware_config_cb_run result g w cb Hreg) as (tr & w' & ? & Hcalls).
    exists tr, w'. by rewrite Hcalls.
  - intros cb Hreg.
    destruct (sco_config_cb_run result g w cb Hreg) as (tr & w' & ? & Hcalls).
    exists tr, w'. by rewrite Hcalls.
  - intros cb Hreg.
    destruct (low_power_mode_cb_run result g w cb Hreg) as (tr & w' & ? & Hcalls).
    exists tr, w'. by rewrite Hcalls.
  - intros cb Hreg.
    destruct (epilog_cb_run result g w cb Hreg) as (tr & w' & ? & Hcalls).
    exists tr, w'. by rewrite Hcalls.
  - apply sco_audiostate_cb_run.
Qed.

(** C9.  [firmware_config_cb], [sco_config_cb], [low_power_mode_cb] and
    [epilog_cb], when a callback is registered for their opcode, call it with
    a boolean that is true if and only if the result they were given is
    [BT_VND_OP_RESULT_SUCCESS]. *)
Theorem result_translated_to_boolean (result : Z) (g : globals) (w : W) (cb : ptr) :
  (registered g VENDOR_CONFIGURE_FIRMWARE cb →
     ∃ tr w' b, run respond (firmware_config_cb result g) w = (Returns (tt, g), tr, w') ∧
                host_callbacks tr = [(cb, b)] ∧
                (b = true ↔ result = BT_VND_OP_RESULT_SUCCESS)) ∧
  (registered g VENDOR_CONFIGURE_SCO cb →
     ∃ tr w' b, run respond (sco_config_cb result g) w = (Returns (tt, g), tr, w') ∧
                host_callbacks tr = [(cb, b)] ∧
                (b = true ↔ result = BT_VND_OP_RESULT_SUCCESS)) ∧
  (registered g VENDOR_SET_LPM_MODE cb →
     ∃ tr w' b, run respond (low_power_mode_cb result g) w = (Returns (tt, g), tr, w') ∧
                host_callbacks tr = [(cb, b)] ∧
                (b = true ↔ result = BT_VND_OP_RESULT_SUCCESS)) ∧
  (registered g VENDOR_DO_EPILOG cb →
     ∃ tr w' b, run respond (epilog_cb result g) w = (Returns (tt, g), tr, w') ∧
                host_callbacks tr = [(cb, b)] ∧
                (b = true ↔ result = BT_VND_OP_RESULT_SUCCESS)).
Proof.
  repeat split.
  - intros Hreg.
    destruct (firmware_config_cb_run result g w cb Hreg) as (tr & w' & ? & ?).
    exists tr, w', (result =? BT_VND_OP_RESULT_SUCCESS).
    split; [done |]. split; [done |]. apply Z.eqb_eq.
  - intros Hreg.
    destruct (sco_config_cb_run result g w cb Hreg) as (tr & w' & ? & ?).
    exists tr, w', (result =? BT_VND_OP_RESULT_SUCCESS).
    split; [done |]. split; [done |]. apply Z.eqb_eq.
  - intros Hreg.
    destruct (low_power_mode_cb_run result g w cb Hreg) as (tr & w' & ? & ?).
    exists tr, w', (result =? BT_VND_OP_RESULT_SUCCESS).
    split; [done |]. split; [done |]. apply Z.eqb_eq.
  - intros Hreg.
    destruct (epilog_cb_run result g w cb Hreg) as (tr & w' & ? & ?).
    exists tr, w', (result =? BT_VND_OP_RESULT_SUCCESS).
    split; [done |]. split; [done |]. apply Z.eqb_eq.
Qed.

End RelayFacts.

(** ** The state of the shim and the table it hands out *)

Section StateClaims.
Context `{bt_vendor_lib_h} `{vendor_h} {W : Type} (respond : call → W → Z * W).

(** C5, amended.  The callback table has [LAST_VENDOR_OPCODE_VALUE + 1]
    slots, seven for the spec's value of [VENDOR_DO_EPILOG]; no sequence of
    entries changes its size, and a sequence without [set_callback] does not
    change it at all; [set_callback] writes the slot of its opcode and no
    other variable.  The table is not the only state:
    [set_send_internal_command_callback] writes
    [send_internal_command_callback], and [vendor_open] writes [allocator],
    [lib_handle] and [lib_interface]. *)
Theorem callback_table_and_other_state :
  length (callbacks initial_globals) = Z.to_nat (LAST_VENDOR_OPCODE_VALUE + 1) ∧
  (VENDOR_DO_EPILOG = spec_VENDOR_DO_EPILOG →
   length (callbacks initial_globals) = 7%nat) ∧
  (∀ es g w g',
     final_globals (run respond (enter_all es g) w) = Some g' →
     length (callbacks g') = length (callbacks g) ∧
     (existsb is_set_callback es = false → callbacks g' = callbacks g)) ∧
  (∀ opcode cb g w,
     0 ≤ opcode < Z.of_nat (length (callbacks g)) →
     ∃ g', run respond (set_callback opcode cb g) w = (Returns (tt, g'), [], w) ∧
           callbacks g' = <[Z.to_nat opcode := cb]> (callbacks g) ∧
           other_state g' = other_state g) ∧
  (∀ cb g w,
     ∃ g', run respond (set_send_internal_command_callback cb g) w
             = (Returns (tt, g'), [], w) ∧
           send_internal_command_callback g' = cb ∧
           callbacks g' = callbacks g) ∧
  (∀ bdaddr al g w,
     lib_handle g = NULL →
     ∃ b g' tr w',
       run respond (vendor_open bdaddr al g) w = (Returns (b, g'), tr, w') ∧
       allocator g' = al ∧
       (b = true → lib_handle g' ≠ NULL ∧ lib_interface g' ≠ NULL) ∧
       callbacks g' = callbacks g).
Proof.
  split; [apply length_replicate |].
  split.
  { intros Heq. simpl. unfold LAST_VENDOR_OPCODE_VALUE. rewrite Heq.
    apply length_replicate. }
  split.
  { intros es g w g' Hg.
    pose proof (enter_all_effect respond es g w) as Hes.
    simpl in Hes. rewrite Hg in Hes.
    by destruct Hes as (_ & Hlen & _ & _ & Hcb). }
  split.
  { intros opcode cb g w Hrange.
    destruct (set_callback_registers respond opcode cb g w Hrange)
      as (g' & Hrun & Hcb & Hother & _).
    by exists g'. }
  split.
  { intros cb g w. by eexists. }
  intros bdaddr al g w Hh.
  destruct (vendor_open_run respond bdaddr al g w Hh)
    as (b & g' & tr & w' & Hrun & Hbeh & Hal & Hcb & _).
  exists b, g', tr, w'. split; [done |]. split; [done |]. split; [| done].
  intros ->. by inversion Hbeh.
Qed.

(** C6, amended.  [lib_callbacks], the table [vendor_open] passes to [init],
    holds its own size followed by eight callbacks, each a different function
    of vendor.c. *)
Theorem lib_callbacks_has_eight_callbacks :
  size lib_callbacks = sizeof_bt_vendor_callbacks_t ∧
  table_callbacks lib_callbacks =
    [fn_firmware_config_cb; fn_sco_config_cb; fn_low_power_mode_cb;
     fn_sco_audiostate_cb; fn_buffer_alloc_cb; fn_buffer_free_cb;
     fn_transmit_cb; fn_epilog_cb] ∧
  length (table_callbacks lib_callbacks) = 8%nat ∧
  NoDup (table_callbacks lib_callbacks) ∧
  (∀ bdaddr al g w iface cbs bdaddr' status,
     In (VendorInit iface cbs bdaddr', status)
        (trace_of (run respond (vendor_open bdaddr al g) w)) →
     cbs = lib_callbacks ∧ bdaddr' = bdaddr).
Proof.
  split; [done |]. split; [done |]. split; [done |]. split.
  { by apply (bool_decide_unpack _). }
  intros bdaddr al g w iface cbs bdaddr' status Hin.
  destruct (decide (lib_handle g = NULL)) as [Hh | Hh].
  - destruct (vendor_open_run respond bdaddr al g w Hh)
      as (b & g' & tr & w' & Hrun & Hbeh & _).
    rewrite Hrun in Hin. unfold trace_of in Hin. simpl in Hin.
    assert (In (VendorInit iface cbs bdaddr', status) (effects tr)) as Heff
      by (by apply filter_In).
    remember (effects tr) as l eqn:Hl. clear Hl Hrun Hin.
    inversion Hbeh; subst; simpl in Heff;
      repeat (destruct Heff as [Heff | Heff]; [by simplify_eq |]);
      done.
  - by rewrite (vendor_open_asserts respond bdaddr al g w Hh) in Hin.
Qed.

End StateClaims.

(** ** The order of use of the vendor library *)

Lemma protocol_run_app (s : lib_state) (tr1 tr2 : list obs) :
  protocol_run s (tr1 ++ tr2) =
    match protocol_run s tr1 with
    | Some s' => protocol_run s' tr2
    | None => None
    end.
Proof.
  revert s. induction tr1 as [| o tr1 IH]; intros s; [done |].
  simpl. by destruct (protocol_step s o).
Qed.

Lemma protocol_run_effects (s : lib_state) (tr : list obs) :
  protocol_run s (effects tr) = protocol_run s tr.
Proof.
  revert s. induction tr as [| [c r] tr IH]; intros s; [done |].
  destruct c; simpl; try done;
    by destruct (protocol_step s _).
Qed.

Ltac protocol_run_tac :=
  unfold entries_protocol, enter, invoke, final_globals, trace_of, outcome_of,
    state_of, consistent;
  unfold vendor_close, send_command, send_async_command, set_callback,
    set_send_internal_command_callback, firmware_config_cb, sco_config_cb,
    low_power_mode_cb, sco_audiostate_cb, buffer_alloc_cb, buffer_free_cb,
    transmit_cb, epilog_cb;
  shim_unfold; shim_run; simpl.

Section ProtocolFacts.
Context `{bt_vendor_lib_h} `{vendor_h} {W : Type} (respond : call → W → Z * W).

Lemma vendor_open_protocol (bdaddr al : ptr) (g : globals) (w : W) :
  consistent g →
  entries_protocol g
    (trace_of (run respond (enter (Call_vendor_open bdaddr al) g) w))
    (final_globals (run respond (enter (Call_vendor_open bdaddr al) g) w)).
Proof.
  intros Hc. simpl. rewrite run_shim_bind.
  destruct (decide (lib_handle g = NULL)) as [Hh | Hh].
  - destruct (vendor_open_run respond bdaddr al g w Hh)
      as (b & g' & tr & w' & -> & Hbeh & _).
    unfold entries_protocol, final_globals, trace_of, outcome_of, state_of,
      consistent, is_null.
    simpl. rewrite app_nil_r, <- protocol_run_effects, Hh. simpl.
    inversion Hbeh as [ | h d Hn | h i st d Hn Hi Hst | h i Hn Hi]; subst; simpl;
      unfold protocol_step, is_null; simpl;
      repeat match goal with
             | Hne : ?x ≠ _ |- context [?x =? _] =>
                 rewrite (proj2 (Z.eqb_neq _ _) Hne)
             end;
      rewrite ?Z.eqb_refl; simpl; rewrite ?Z.eqb_refl; simpl;
      repeat match goal with
             | Hne : ?x ≠ _ |- context [?x =? _] =>
                 rewrite (proj2 (Z.eqb_neq _ _) Hne)
             end;
      (split; [done | tauto]).
  - rewrite (vendor_open_asserts respond bdaddr al g w Hh). by exists g.
Qed.

Ltac protocol_done g Hc :=
  unfold protocol_step, is_null; simpl; rewrite ?Z.eqb_refl; simpl;
  rewrite ?negb_true_iff, ?negb_false_iff in *;
  repeat match goal with
         | E : (?x =? ?y) = _ |- context [?x =? ?y] => rewrite E
         end;
  simpl;
  repeat match goal with
         | E : (_ =? _) = true |- _ => apply Z.eqb_eq in E
         | E : (_ =? _) = false |- _ => apply Z.eqb_neq in E
         end;
  unfold consistent in Hc;
  first [ done
        | tauto
        | split; [done | tauto]
        | exists g; unfold state_of, is_null;
          repeat match goal with
                 | E : ?x = NULL |- context [?x =? NULL] => rewrite E
                 | E : ?x ≠ NULL |- context [?x =? NULL] =>
                     rewrite (proj2 (Z.eqb_neq _ _) E)
                 end; done ].

Lemma enter_protocol (e : entry) (g : globals) (w : W) :
  consistent g →
  entries_protocol g (trace_of (run respond (enter e g) w))
    (final_globals (run respond (enter e g) w)).
Proof.
  intros Hc.
  destruct e as [bdaddr al | | o p | o p | o c | c | f a0 a1 a2].
  - by apply vendor_open_protocol.
  - protocol_run_tac; protocol_done g Hc.
  - protocol_run_tac; protocol_done g Hc.
  - protocol_run_tac; protocol_done g Hc.
  - protocol_run_tac; protocol_done g Hc.
  - protocol_run_tac; protocol_done g Hc.
  - destruct f; protocol_run_tac; protocol_done g Hc.
Qed.

Lemma enter_all_protocol (es : list entry) (g : globals) (w : W) :
  consistent g →
  entries_protocol g (trace_of (run respond (enter_all es g) w))
    (final_globals (run respond (enter_all es g) w)).
Proof.
  revert g w. induction es as [| e es IH]; intros g w Hc; [done |].
  change (enter_all (e :: es) g) with ((enter e ≫= λ _, enter_all es) g).
  rewrite run_shim_bind.
  pose proof (enter_protocol e g w Hc) as He.
  destruct (run respond (enter e g) w) as [[[[u g1] | f] tr1] w1];
    [| exact He].
  destruct He as (Hrun1 & Hc1).
  specialize (IH g1 w1 Hc1).
  destruct (run respond (enter_all es g1) w1) as [[[[u2 g2] | f] tr2] w2];
    unfold entries_protocol, final_globals, trace_of, outcome_of in *;
    cbn [fst snd] in *; rewrite protocol_run_app, Hrun1; exact IH.
Qed.

Lemma initial_globals_consistent : consistent initial_globals.
Proof. done. Qed.

(** X1.  From the zeroed variables, whatever entries are made and whatever
    the environment answers, the calls to the loader and to the vendor
    library come in the order of use: [dlopen] of "libbt-vendor.so", [dlsym]
    of "BLUETOOTH_VENDOR_LIB_INTERFACE" on the handle it returned, [init] on
    the interface that returned, [op] and [cleanup] only on an interface
    whose [init] returned zero, [dlclose] only on the handle that is open and
    only after [cleanup] or a failed step; and no host function is called
    through a null pointer.  When the entries returned, the variables say
    where the library is. *)
Theorem library_used_in_order (es : list entry) (w : W) :
  ∃ s,
    protocol_run Unloaded (trace_of (run respond (enter_all es initial_globals) w))
      = Some s ∧
    ∀ g, final_globals (run respond (enter_all es initial_globals) w) = Some g →
         s = state_of g.
Proof.
  pose proof (enter_all_protocol es initial_globals w initial_globals_consistent)
    as Hes.
  change (state_of initial_globals) with Unloaded in Hes.
  destruct (final_globals _) as [g |]; simpl in Hes.
  - destruct Hes as (Hrun & _). exists (state_of g). split; [done |].
    by intros ? [= <-].
  - destruct Hes as (g1 & Hrun). by exists (state_of g1).
Qed.

(** X2.  After any sequence of entries that returned, [lib_handle] and
    [lib_interface] are null together; so with no library held
    [send_command] and [send_async_command] stop at their assertion without
    calling anything, and with a library held they go through. *)
Theorem commands_need_a_loaded_library (es : list entry) (w0 : W) (g : globals) :
  final_globals (run respond (enter_all es initial_globals) w0) = Some g →
  (lib_handle g = NULL ↔ lib_interface g = NULL) ∧
  ∀ opcode param (w : W),
    (held_handles (trace_of (run respond (enter_all es initial_globals) w0)) = [] →
     run respond (send_command opcode param g) w = (Aborts AssertionFailed, [], w) ∧
     run respond (send_async_command opcode param g) w = (Aborts AssertionFailed, [], w)) ∧
    (held_handles (trace_of (run respond (enter_all es initial_globals) w0)) ≠ [] →
     outcome_of (run respond (send_command opcode param g) w)
       = Returns ((respond (VendorOp (lib_interface g) opcode param) w).1, g) ∧
     outcome_of (run respond (send_async_command opcode param g) w)
       = Returns ((respond (VendorOp (lib_interface g) opcode param) w).1, g)).
Proof.
  intros Hg.
  pose proof (enter_all_protocol es initial_globals w0 initial_globals_consistent)
    as Hp.
  pose proof (enter_all_effect respond es initial_globals w0) as He.
  simpl in He. rewrite Hg in Hp, He. destruct Hp as (_ & Hc).
  destruct He as (Hheld & _).
  change (fold_left track_handle ?tr (handles_of initial_globals))
    with (held_handles tr) in Hheld.
  rewrite Hheld. split; [exact Hc |].
  intros opcode param w. unfold handles_of, is_null.
  destruct (lib_handle g =? NULL) eqn:Hh.
  - apply Z.eqb_eq in Hh. apply Hc in Hh.
    split; [| done]. intros _.
    unfold send_command, send_async_command. shim_unfold. simpl.
    by rewrite Hh.
  - apply Z.eqb_neq in Hh.
    assert (lib_interface g ≠ NULL) as Hi by (intros Hi; by apply Hc in Hi).
    split; [done |]. intros _. apply Z.eqb_neq in Hi.
    unfold send_command, send_async_command, outcome_of. shim_unfold. simpl.
    rewrite Hi. simpl. by destruct (respond _ w) as [r w1].
Qed.

End ProtocolFacts.

(** ** Registrations and the callbacks that use them *)

Lemma last_set_callback_cons (e : entry) (es : list entry) (opcode : Z) (dflt : ptr) :
  last_set_callback (e :: es) opcode dflt =
    last_set_callback es opcode (last_set_callback [e] opcode dflt).
Proof. by destruct e. Qed.

Section RegistrationFacts.
Context `{bt_vendor_lib_h} `{vendor_h} {W : Type} (respond : call → W → Z * W).

Lemma enter_slot (e : entry) (g g' : globals) (w : W) (opcode : Z) (d : ptr) :
  final_globals (run respond (enter e g) w) = Some g' →
  0 ≤ opcode →
  callbacks g !! Z.to_nat opcode = Some d →
  callbacks g' !! Z.to_nat opcode = Some (last_set_callback [e] opcode d).
Proof.
  intros Hg Hpos Hslot.
  destruct (is_set_callback e) eqn:Hset.
  - destruct e as [| | | | o c | |]; try discriminate. simpl.
    unfold final_globals, outcome_of, enter, set_callback, callbacks_set in Hg.
    destruct ((0 <=? o) && (Z.to_nat o <? length (callbacks g))%nat) eqn:Hin;
      simpl in Hg; [| discriminate].
    injection Hg as <-. simpl.
    apply andb_true_iff in Hin as [Ho%Z.leb_le Hlt%Nat.ltb_lt].
    destruct (o =? opcode) eqn:Heq.
    + apply Z.eqb_eq in Heq as ->. by apply list_lookup_insert_eq.
    + apply Z.eqb_neq in Heq. rewrite list_lookup_insert_ne by lia. done.
  - pose proof (enter_effect respond e g w) as He. simpl in He.
    rewrite Hg in He. destruct He as (_ & _ & _ & _ & Hcb).
    rewrite Hcb by (simpl; by rewrite Hset).
    by destruct e.
Qed.

Lemma enter_all_slot (es : list entry) (g g' : globals) (w : W) (opcode : Z) (d : ptr) :
  final_globals (run respond (enter_all es g) w) = Some g' →
  0 ≤ opcode →
  callbacks g !! Z.to_nat opcode = Some d →
  callbacks g' !! Z.to_nat opcode = Some (last_set_callback es opcode d).
Proof.
  revert g w d. induction es as [| e es IH]; intros g w d Hg Hpos Hslot.
  { injection Hg as <-. done. }
  rewrite last_set_callback_cons.
  change (enter_all (e :: es) g) with ((enter e ≫= λ _, enter_all es) g) in Hg.
  rewrite run_shim_bind in Hg.
  pose proof (enter_slot e g) as He.
  destruct (run respond (enter e g) w) as [[[[u g1] | f] tr1] w1] eqn:Hrun;
    [| discriminate].
  specialize (He g1 w opcode d). rewrite Hrun in He.
  apply (IH g1 w1).
  - unfold final_globals, outcome_of in *.
    by destruct (run respond (enter_all es g1) w1) as [[[[u2 g2] | f] tr2] w2].
  - done.
  - by apply He.
Qed.

Lemma initial_slot (opcode : Z) :
  0 ≤ opcode ≤ LAST_VENDOR_OPCODE_VALUE →
  callbacks initial_globals !! Z.to_nat opcode = Some NULL.
Proof. intros Hr. simpl. apply lookup_replicate_2. lia. Qed.

(** X3.  After any sequence of entries that returned, each slot of the
    callback table holds the callback of the most recent [set_callback] for
    its opcode, whatever was registered for other opcodes before or after,
    and null when there was none. *)
Theorem slot_holds_latest_registration
    (es : list entry) (w : W) (g : globals) (opcode : Z) :
  final_globals (run respond (enter_all es initial_globals) w) = Some g →
  0 ≤ opcode ≤ LAST_VENDOR_OPCODE_VALUE →
  callbacks g !! Z.to_nat opcode = Some (last_set_callback es opcode NULL).
Proof.
  intros Hg Hr. apply (enter_all_slot es initial_globals g w); [done | lia |].
  by apply initial_slot.
Qed.

Lemma relay_unregistered (f : lib_callback_fn) (opcode result a1 a2 : Z)
    (g : globals) (w : W) :
  relay_of f = Some opcode →
  0 ≤ opcode →
  callbacks g !! Z.to_nat opcode = Some NULL →
  ∃ tr w',
    run respond (invoke f result a1 a2 g) w = (Aborts AssertionFailed, tr, w') ∧
    host_callbacks tr = [].
Proof.
  intros Hf Hpos%Z.leb_le Hslot.
  destruct f; simplify_eq/=;
    unfold firmware_config_cb, sco_config_cb, low_power_mode_cb, epilog_cb;
    shim_unfold; simpl; answer; simpl;
    rewrite Hpos, Hslot; simpl; by eexists _, _.
Qed.

Lemma relay_registered (f : lib_callback_fn) (opcode result a1 a2 : Z)
    (g : globals) (w : W) (cb : ptr) :
  relay_of f = Some opcode →
  registered g opcode cb →
  ∃ tr w',
    run respond (invoke f result a1 a2 g) w = (Returns (0, g), tr, w') ∧
    host_callbacks tr = [(cb, result =? BT_VND_OP_RESULT_SUCCESS)].
Proof.
  intros Hf Hreg.
  destruct f; simplify_eq/=;
    unfold firmware_config_cb, sco_config_cb, low_power_mode_cb, epilog_cb;
    relay_run Hreg.
Qed.

(** X4.  A relaying callback of [lib_callbacks] (firmware configuration, SCO
    configuration, low-power mode, epilog) called after any sequence of
    entries that returned: when the most recent [set_callback] for its opcode
    gave a non-null callback, it calls that callback, once, with the
    translated result; when there was none, or the most recent one gave null,
    it stops at its assertion and calls no host callback. *)
Theorem relay_uses_latest_registration
    (es : list entry) (w0 w : W) (g : globals)
    (f : lib_callback_fn) (opcode result a1 a2 : Z) :
  final_globals (run respond (enter_all es initial_globals) w0) = Some g →
  relay_of f = Some opcode →
  0 ≤ opcode ≤ LAST_VENDOR_OPCODE_VALUE →
  ∃ tr w',
    (last_set_callback es opcode NULL ≠ NULL →
     run respond (invoke f result a1 a2 g) w = (Returns (0, g), tr, w') ∧
     host_callbacks tr =
       [(last_set_callback es opcode NULL, result =? BT_VND_OP_RESULT_SUCCESS)]) ∧
    (last_set_callback es opcode NULL = NULL →
     run respond (invoke f result a1 a2 g) w = (Aborts AssertionFailed, tr, w') ∧
     host_callbacks tr = []).
Proof.
  intros Hg Hf Hr.
  pose proof (enter_all_slot es initial_globals g w0 opcode NULL Hg (proj1 Hr)
                (initial_slot opcode Hr)) as Hslot.
  destruct (decide (last_set_callback es opcode NULL = NULL)) as [Hnull | Hcb].
  - rewrite Hnull in Hslot.
    destruct (relay_unregistered f opcode result a1 a2 g w Hf (proj1 Hr) Hslot)
      as (tr & w' & Hrun & Hcalls).
    exists tr, w'. split; [done |]. by intros _.
  - destruct (relay_registered f opcode result a1 a2 g w _ Hf
                (conj (proj1 Hr) (conj Hslot Hcb)))
      as (tr & w' & Hrun & Hcalls).
    exists tr, w'. split; [by intros _ | done].
Qed.

(** X5.  After any sequence of entries that returned, [transmit_cb] stops at
    its assertion, without calling anything, when no function was registered
    with [set_send_internal_command_callback] or the most recent
    registration gave null. *)
Theorem transmit_needs_a_sender
    (es : list entry) (w0 w : W) (g : globals) (opcode : Z) (buffer callback : ptr) :
  final_globals (run respond (enter_all es initial_globals) w0) = Some g →
  last_registered_sender es NULL = NULL →
  run respond (transmit_cb opcode buffer callback g) w = (Aborts AssertionFailed, [], w).
Proof.
  intros Hg Hnone.
  pose proof (enter_all_effect respond es initial_globals w0) as Hes.
  simpl in Hes. rewrite Hg in Hes.
  destruct Hes as (_ & _ & _ & Hsend & _). simpl in Hsend.
  rewrite Hnone in Hsend.
  unfold transmit_cb. shim_unfold. simpl. by rewrite Hsend.
Qed.

End RegistrationFacts.

(** ** Opening again, closing, and what a failure logs *)

Section LifecycleFacts.
Context `{bt_vendor_lib_h} `{vendor_h} {W : Type} (respond : call → W → Z * W).

Lemma run_enter_all_app (es1 es2 : list entry) (g : globals) (w : W) :
  run respond (enter_all (es1 ++ es2) g) w =
    match run respond (enter_all es1 g) w with
    | (Returns (_, g1), tr, w1) =>
        let '(o, tr2, w2) := run respond (enter_all es2 g1) w1 in (o, tr ++ tr2, w2)
    | (Aborts e, tr, w1) => (Aborts e, tr, w1)
    end.
Proof.
  revert g w. induction es1 as [| e es1 IH]; intros g w.
  { simpl. by destruct (run respond (enter_all es2 g) w) as [[o tr2] w2]. }
  change (enter_all ((e :: es1) ++ es2) g)
    with ((enter e ≫= λ _, enter_all (es1 ++ es2)) g).
  change (enter_all (e :: es1) g) with ((enter e ≫= λ _, enter_all es1) g).
  rewrite !run_shim_bind.
  destruct (run respond (enter e g) w) as [[[[u g1] | f] tr1] w1]; [| done].
  rewrite IH.
  destruct (run respond (enter_all es1 g1) w1) as [[[[u2 g2] | f] tr2] w2];
    [| done].
  destruct (run respond (enter_all es2 g2) w2) as [[o tr3] w3].
  by rewrite app_assoc.
Qed.

(** X6.  After a [vendor_open] that failed, [vendor_open] can be called
    again; after one that succeeded, a second [vendor_open] stops at its
    assertion before calling anything; and after [vendor_close], which never
    fails, [vendor_open] can be called again in either case. *)
Theorem open_again (bdaddr al bdaddr2 al2 : ptr) (g : globals) (w : W) :
  lib_handle g = NULL →
  ∃ b g' tr w',
    run respond (vendor_open bdaddr al g) w = (Returns (b, g'), tr, w') ∧
    (b = true →
     run respond (vendor_open bdaddr2 al2 g') w' = (Aborts AssertionFailed, [], w')) ∧
    (b = false →
     ∃ b2 g2 tr2 w2,
       run respond (vendor_open bdaddr2 al2 g') w' = (Returns (b2, g2), tr2, w2)) ∧
    ∃ gc trc wc,
      run respond (vendor_close g') w' = (Returns (tt, gc), trc, wc) ∧
      ∃ b3 g3 tr3 w3,
        run respond (vendor_open bdaddr2 al2 gc) wc = (Returns (b3, g3), tr3, w3).
Proof.
  intros Hh.
  destruct (vendor_open_run respond bdaddr al g w Hh)
    as (b & g' & tr & w' & Hrun & Hbeh & _).
  exists b, g', tr, w'. split; [done |]. split; [| split].
  - intros ->. apply vendor_open_asserts. by inversion Hbeh.
  - intros ->.
    assert (lib_handle g' = NULL) as Hh' by (by inversion Hbeh).
    destruct (vendor_open_run respond bdaddr2 al2 g' w' Hh')
      as (b2 & g2 & tr2 & w2 & Hrun2 & _).
    by exists b2, g2, tr2, w2.
  - destruct (vendor_close_run respond g' w') as (trc & wc & Hclose & _).
    eexists _, trc, wc. split; [exact Hclose |].
    destruct (vendor_open_run respond bdaddr2 al2
                (set_lib_handle NULL (set_lib_interface NULL g')) wc eq_refl)
      as (b3 & g3 & tr3 & w3 & Hrun3 & _).
    by exists b3, g3, tr3, w3.
Qed.

(** X7.  Whatever entries were made before, [vendor_close] at the end
    returns (when they did) and leaves no library handle held: every handle
    [dlopen] gave out has been passed to [dlclose], and [lib_handle] and
    [lib_interface] are null. *)
Theorem close_releases_the_library (es : list entry) (w : W) :
  is_Some (final_globals (run respond (enter_all es initial_globals) w)) →
  ∃ g,
    final_globals (run respond (enter_all (es ++ [Call_vendor_close]) initial_globals) w)
      = Some g ∧
    lib_handle g = NULL ∧ lib_interface g = NULL ∧
    held_handles
      (trace_of (run respond (enter_all (es ++ [Call_vendor_close]) initial_globals) w))
      = [].
Proof.
  intros [g0 Hg0].
  pose proof (enter_all_effect respond (es ++ [Call_vendor_close]) initial_globals w)
    as Hall.
  simpl in Hall. unfold final_globals, trace_of, outcome_of in *.
  rewrite run_enter_all_app in *.
  destruct (run respond (enter_all es initial_globals) w)
    as [[[[u g1] | f] tr1] w1]; [| discriminate].
  change (enter_all [Call_vendor_close] g1)
    with ((vendor_close ≫= λ _, mret tt) g1) in *.
  rewrite run_shim_bind in *.
  destruct (vendor_close_run respond g1 w1) as (trc & wc & Hclose & _).
  rewrite Hclose in *. simpl in *.
  destruct Hall as (Hheld & _).
  eexists. split; [reflexivity |]. split; [done |]. split; [done |].
  exact Hheld.
Qed.

(** X8.  A [vendor_open] that fails writes exactly one error line to the
    log, one that succeeds writes none; and [dlerror] is consulted, once,
    exactly when [init] was not reached (the library or its symbol was not
    found). *)
Theorem failure_is_logged_once (bdaddr al : ptr) (g : globals) (w : W) :
  lib_handle g = NULL →
  ∃ b g' tr w',
    run respond (vendor_open bdaddr al g) w = (Returns (b, g'), tr, w') ∧
    length (error_lines tr) = (if b then 0 else 1)%nat ∧
    (length (dlerror_calls tr) + length (init_calls tr) = 1)%nat.
Proof.
  intros Hh. unfold vendor_open, vendor_open_error. shim_unfold. simpl.
  rewrite Hh. shim_run; by eexists _, _, _, _.
Qed.

(** X9.  [vendor_close] after any sequence of entries that returned: with a
    library held it calls [cleanup] on the interface and then [dlclose] on
    the handle, in that order and nothing else; with none held it calls
    nothing. *)
Theorem close_cleans_up_then_unloads (es : list entry) (w0 w : W) (g : globals) :
  final_globals (run respond (enter_all es initial_globals) w0) = Some g →
  (trace_of (run respond (vendor_close g) w)).*1 =
    if is_null (lib_handle g) then []
    else [VendorCleanup (lib_interface g); Dlclose (lib_handle g)].
Proof.
  intros Hg.
  pose proof (enter_all_protocol respond es initial_globals w0
                (initial_globals_consistent)) as Hp.
  rewrite Hg in Hp. destruct Hp as (_ & Hc). unfold consistent in Hc.
  unfold vendor_close, trace_of. shim_unfold. shim_run; simpl;
    repeat match goal with
           | E : (_ =? _) = true |- _ => apply Z.eqb_eq in E
           | E : (_ =? _) = false |- _ => apply Z.eqb_neq in E
           end;
    first [done | tauto].
Qed.

(** X10.  Forwarding a command and serving a callback of the vendor library
    never assign to a variable of the shim: only [vendor_open],
    [vendor_close], [set_callback] and [set_send_internal_command_callback]
    do. *)
Theorem forwarding_writes_nothing (e : entry) (g g' : globals) (w : W) :
  writes_variables e = false →
  final_globals (run respond (enter e g) w) = Some g' →
  g' = g.
Proof.
  intros Hw. destruct e as [| | o p | o p | | | f a0 a1 a2]; try discriminate;
    try destruct f;
    unfold final_globals, outcome_of, enter, invoke, send_command,
      send_async_command, firmware_config_cb, sco_config_cb, low_power_mode_cb,
      sco_audiostate_cb, buffer_alloc_cb, buffer_free_cb, transmit_cb, epilog_cb;
    shim_unfold; shim_run; simpl; by intros [= <-].
Qed.

End LifecycleFacts.

(** ** The claims at concrete inputs *)

Section Examples.
#[local] Existing Instance example_bt_vendor_lib_h.
#[local] Existing Instance seven_slot_vendor_h.

Example friendly_open :
  run friendly (vendor_open 5 7 initial_globals) 0%nat =
    (Returns (true, set_send_internal NULL loaded_globals),
     [(Dlopen "libbt-vendor.so" RTLD_NOW, 4096);
      (Dlsym 4096 "BLUETOOTH_VENDOR_LIB_INTERFACE", 8192);
      (Log ANDROID_LOG_INFO "alloc value %p" [LFn fn_buffer_alloc_cb], 0);
      (VendorInit 8192 lib_callbacks 5, 0)],
     4%nat).
Proof. reflexivity. Qed.

Example no_symbol_open :
  run no_symbol (vendor_open 5 7 initial_globals) 0%nat =
    (Returns (false, set_allocator 7 initial_globals),
     [(Dlopen "libbt-vendor.so" RTLD_NOW, 4096);
      (Dlsym 4096 "BLUETOOTH_VENDOR_LIB_INTERFACE", 0);
      (Dlerror, 0);
      (Log ANDROID_LOG_ERROR "%s unable to find symbol %s in %s: %s"
         [LStr "vendor_open"; LStr "BLUETOOTH_VENDOR_LIB_INTERFACE";
          LStr "libbt-vendor.so"; LPtr 0], 0);
      (Dlclose 4096, 0)],
     5%nat).
Proof. reflexivity. Qed.

Example open_twice_asserts :
  outcome_of
    (run friendly
       (enter_all [Call_vendor_open 5 7; Call_vendor_open 5 9] initial_globals) 0%nat)
    = Aborts AssertionFailed.
Proof. reflexivity. Qed.

Example relay_after_registration :
  trace_of
    (run friendly
       (enter_all [Call_set_callback VENDOR_CONFIGURE_SCO 102;
                   Call_lib_callback fn_sco_config_cb 1 0 0;
                   Call_lib_callback fn_sco_audiostate_cb 1 0 0]
          initial_globals) 0%nat)
    = [(Log ANDROID_LOG_INFO "%s" [LStr "sco_config_cb"], 0);
       (HostCallback 102 false, 0);
       (Log ANDROID_LOG_INFO "sco_audiostate_cb(status: %d)" [LInt 1], 0)].
Proof. reflexivity. Qed.

Lemma vendor_open_three_steps_witness :
  lib_handle initial_globals = NULL ∧
  ∃ g' tr w',
    run friendly (vendor_open 5 7 initial_globals) 0%nat = (Returns (true, g'), tr, w').
Proof.
  split; [reflexivity |].
  destruct (vendor_open_three_steps friendly 5 7 initial_globals 0%nat eq_refl)
    as (b & g' & tr & w' & Hrun & _ & _).
  exists g', tr, w'. rewrite Hrun. vm_compute in Hrun. by simplify_eq.
Defined.


Lemma at_most_one_library_loaded_witness :
  final_globals
    (run friendly
       (enter_all [Call_vendor_open 5 7; Call_vendor_close; Call_vendor_open 5 9]
          initial_globals) 0%nat)
    = Some {| allocator := 9; callbacks := replicate 7 NULL;
              send_internal_command_callback := NULL;
              lib_handle := 4096; lib_interface := 8192 |} ∧
  held_handles
    (trace_of
       (run friendly
          (enter_all [Call_vendor_open 5 7; Call_vendor_close; Call_vendor_open 5 9]
             initial_globals) 0%nat))
    = [4096].
Proof.
  split; [reflexivity |].
  destruct (at_most_one_library_loaded friendly
              [Call_vendor_open 5 7; Call_vendor_close; Call_vendor_open 5 9] 0%nat)
    as (_ & Hheld & _).
  exact (Hheld _ eq_refl).
Defined.

Lemma vendor_close_idempotent_witness :
  lib_interface initial_globals = NULL ∧ lib_handle initial_globals = NULL ∧
  run friendly (vendor_close initial_globals) 0%nat = (Returns (tt, initial_globals), [], 0%nat).
Proof.
  split; [reflexivity |]. split; [reflexivity |].
  exact (proj1 (vendor_close_idempotent friendly initial_globals 0%nat) eq_refl eq_refl).
Defined.

Lemma send_command_passes_through_witness :
  lib_interface busy_globals ≠ NULL ∧
  run friendly (send_command 3 40 busy_globals) 0%nat =
    single_call friendly (VendorOp 8192 3 40) (λ r, (r, busy_globals)) 0%nat.
Proof.
  assert (lib_interface busy_globals ≠ NULL) as Hi by discriminate.
  split; [exact Hi |].
  exact (proj1 (send_command_passes_through friendly 3 40 busy_globals 0%nat Hi)).
Defined.

Lemma buffers_and_transmit_delegated_witness :
  final_globals
    (run friendly
       (enter_all [Call_vendor_open 5 7; Call_set_send_internal_command_callback 600]
          initial_globals) 0%nat)
    = Some (loaded_globals) ∧
  last_open_allocator
    [Call_vendor_open 5 7; Call_set_send_internal_command_callback 600] NULL ≠ NULL ∧
  run friendly
    (buffer_alloc_cb 16
       (loaded_globals)) 9%nat
    = (Returns (12297,
                loaded_globals),
       [(AllocatorAlloc 7 16, 12297)], 10%nat).
Proof.
  assert (final_globals
            (run friendly
               (enter_all [Call_vendor_open 5 7; Call_set_send_internal_command_callback 600]
                  initial_globals) 0%nat)
          = Some (loaded_globals))
    as Hg by reflexivity.
  assert (last_open_allocator
            [Call_vendor_open 5 7; Call_set_send_internal_command_callback 600] NULL
          ≠ NULL) as Ha by discriminate.
  split; [exact Hg |]. split; [exact Ha |].
  destruct (buffers_and_transmit_delegated friendly _ 0%nat _ Hg 9%nat)
    as (Hbuffers & _).
  exact (proj1 (Hbuffers Ha) 16).
Defined.

(** C7 as stated fails when the most recent [vendor_open] was given a null
    allocator: [buffer_alloc_cb] and [buffer_free_cb] then read a member
    through the null pointer and return nothing. *)
Lemma buffer_callbacks_need_an_allocator :
  final_globals
    (run friendly (enter_all [Call_vendor_open 5 NULL] initial_globals) 0%nat)
    = Some (set_allocator NULL (set_send_internal NULL loaded_globals)) ∧
  run friendly
    (buffer_alloc_cb 16 (set_allocator NULL (set_send_internal NULL loaded_globals)))
    4%nat
    = (Aborts NullDereference, [], 4%nat) ∧
  run friendly
    (buffer_free_cb 33 (set_allocator NULL (set_send_internal NULL loaded_globals)))
    4%nat
    = (Aborts NullDereference, [], 4%nat).
Proof. repeat split. Qed.

Lemma callbacks_forwarded_to_host_witness :
  registered busy_globals VENDOR_DO_EPILOG 107 ∧
  ∃ tr w',
    run friendly (epilog_cb 0 busy_globals) 0%nat = (Returns (tt, busy_globals), tr, w') ∧
    (host_callbacks tr).*1 = [107].
Proof.
  assert (registered busy_globals VENDOR_DO_EPILOG 107) as Hreg
    by (split; [discriminate | split; [reflexivity | discriminate]]).
  split; [exact Hreg |].
  destruct (callbacks_forwarded_to_host friendly 0 busy_globals 0%nat)
    as (_ & _ & _ & Hepilog & _).
  exact (Hepilog 107 Hreg).
Defined.

Lemma result_translated_to_boolean_witness :
  registered busy_globals VENDOR_CONFIGURE_FIRMWARE 102 ∧
  ∃ tr w' b,
    run friendly (firmware_config_cb 1 busy_globals) 0%nat
      = (Returns (tt, busy_globals), tr, w') ∧
    host_callbacks tr = [(102, b)] ∧
    (b = true ↔ 1 = BT_VND_OP_RESULT_SUCCESS).
Proof.
  assert (registered busy_globals VENDOR_CONFIGURE_FIRMWARE 102) as Hreg
    by (split; [discriminate | split; [reflexivity | discriminate]]).
  split; [exact Hreg |].
  exact (proj1 (result_translated_to_boolean friendly 1 busy_globals 0%nat 102) Hreg).
Defined.

Lemma callback_table_and_other_state_witness :
  VENDOR_DO_EPILOG = spec_VENDOR_DO_EPILOG ∧
  length (callbacks initial_globals) = 7%nat.
Proof.
  split; [reflexivity |].
  destruct (callback_table_and_other_state friendly) as (_ & Hseven & _).
  exact (Hseven eq_refl).
Defined.

Lemma lib_callbacks_has_eight_callbacks_witness :
  In (VendorInit 8192 lib_callbacks 5, 0)
     (trace_of (run friendly (vendor_open 5 7 initial_globals) 0%nat)) ∧
  lib_callbacks = lib_callbacks ∧ 5 = 5.
Proof.
  assert (In (VendorInit 8192 lib_callbacks 5, 0)
            (trace_of (run friendly (vendor_open 5 7 initial_globals) 0%nat))) as Hin
    by (vm_compute; tauto).
  split; [exact Hin |].
  destruct (lib_callbacks_has_eight_callbacks friendly) as (_ & _ & _ & _ & Hinit).
  exact (Hinit 5 7 initial_globals 0%nat 8192 lib_callbacks 5 0 Hin).
Defined.

(** C2 as stated fails for the SCO audio state: with a callback registered
    in every slot of the table, [sco_audiostate_cb] calls no host callback. *)
Lemma sco_audiostate_cb_forwards_nothing :
  Forall (λ cb, cb ≠ NULL) (callbacks busy_globals) ∧
  ¬ ∃ cb b, In (cb, b)
      (host_callbacks (trace_of (run friendly (sco_audiostate_cb 0 busy_globals) 0%nat))).
Proof.
  split.
  - repeat constructor; discriminate.
  - by intros (cb & b & Hin).
Qed.

(** C5 as stated fails: [set_send_internal_command_callback], a member of
    [interface], writes a variable that is not the callback table. *)
Lemma set_send_internal_command_callback_writes_other_state :
  is_interface_entry (Call_set_send_internal_command_callback 600) = true ∧
  other_state <$>
    final_globals
      (run friendly
         (enter (Call_set_send_internal_command_callback 600) initial_globals) 0%nat)
    ≠ Some (other_state initial_globals).
Proof. split; [reflexivity | discriminate]. Qed.

(** C6 as stated fails: the table holds eight callbacks, not twelve. *)
Lemma lib_callbacks_not_a_dozen :
  length (table_callbacks lib_callbacks) ≠ 12%nat.
Proof. discriminate. Qed.

(** The order of use rejects a command sent to a library that was never
    loaded, and a handle closed twice. *)
Example out_of_order_rejected :
  protocol_run Unloaded [(VendorOp 8192 3 40, 0)] = None ∧
  protocol_run (Closing 4096) [(Dlclose 4096, 0); (Dlclose 4096, 0)] = None.
Proof. split; reflexivity. Qed.

Lemma library_used_in_order_witness :
  protocol_run Unloaded
    (trace_of
       (run friendly
          (enter_all [Call_vendor_open 5 7; Call_send_command 3 40; Call_vendor_close]
             initial_globals) 0%nat))
    = Some Unloaded.
Proof.
  destruct (library_used_in_order friendly
              [Call_vendor_open 5 7; Call_send_command 3 40; Call_vendor_close] 0%nat)
    as (s & Hrun & Hs).
  rewrite Hrun. f_equal. exact (Hs _ eq_refl).
Defined.

Lemma commands_need_a_loaded_library_witness :
  final_globals (run friendly (enter_all [Call_vendor_open 5 7] initial_globals) 0%nat)
    = Some (set_send_internal NULL loaded_globals) ∧
  outcome_of (run friendly (send_command 3 40 (set_send_internal NULL loaded_globals)) 9%nat)
    = Returns (4, set_send_internal NULL loaded_globals).
Proof.
  assert (final_globals
            (run friendly (enter_all [Call_vendor_open 5 7] initial_globals) 0%nat)
          = Some (set_send_internal NULL loaded_globals)) as Hg by reflexivity.
  split; [exact Hg |].
  destruct (commands_need_a_loaded_library friendly _ 0%nat _ Hg) as (_ & Hcmd).
  destruct (Hcmd 3 40 9%nat) as (_ & Hheld).
  apply Hheld. discriminate.
Defined.

Lemma slot_holds_latest_registration_witness :
  final_globals
    (run friendly
       (enter_all [Call_set_callback 2 102; Call_set_callback 1 55; Call_set_callback 2 77]
          initial_globals) 0%nat)
    = Some (set_callbacks [0; 55; 77; 0; 0; 0; 0] initial_globals) ∧
  0 ≤ 2 ≤ LAST_VENDOR_OPCODE_VALUE ∧
  callbacks (set_callbacks [0; 55; 77; 0; 0; 0; 0] initial_globals) !! Z.to_nat 2 = Some 77.
Proof.
  assert (final_globals
            (run friendly
               (enter_all [Call_set_callback 2 102; Call_set_callback 1 55;
                           Call_set_callback 2 77] initial_globals) 0%nat)
          = Some (set_callbacks [0; 55; 77; 0; 0; 0; 0] initial_globals))
    as Hg by reflexivity.
  assert (0 ≤ 2 ≤ LAST_VENDOR_OPCODE_VALUE) as Hr by (split; discriminate).
  split; [exact Hg |]. split; [exact Hr |].
  exact (slot_holds_latest_registration friendly _ 0%nat _ 2 Hg Hr).
Defined.

Lemma relay_uses_latest_registration_witness :
  final_globals
    (run friendly (enter_all [Call_set_callback 2 102] initial_globals) 0%nat)
    = Some (set_callbacks [0; 0; 102; 0; 0; 0; 0] initial_globals) ∧
  relay_of fn_sco_config_cb = Some 2 ∧
  0 ≤ 2 ≤ LAST_VENDOR_OPCODE_VALUE ∧
  ∃ tr w',
    run friendly
      (invoke fn_sco_config_cb 0 0 0
         (set_callbacks [0; 0; 102; 0; 0; 0; 0] initial_globals)) 0%nat
      = (Returns (0, set_callbacks [0; 0; 102; 0; 0; 0; 0] initial_globals), tr, w') ∧
    host_callbacks tr = [(102, true)].
Proof.
  assert (final_globals
            (run friendly (enter_all [Call_set_callback 2 102] initial_globals) 0%nat)
          = Some (set_callbacks [0; 0; 102; 0; 0; 0; 0] initial_globals))
    as Hg by reflexivity.
  assert (0 ≤ 2 ≤ LAST_VENDOR_OPCODE_VALUE) as Hr by (split; discriminate).
  split; [exact Hg |]. split; [reflexivity |]. split; [exact Hr |].
  destruct (relay_uses_latest_registration friendly _ 0%nat 0%nat _
              fn_sco_config_cb 2 0 0 0 Hg eq_refl Hr)
    as (tr & w' & Hreg & _).
  exists tr, w'. apply Hreg. discriminate.
Defined.

Lemma transmit_needs_a_sender_witness :
  final_globals (run friendly (enter_all [Call_vendor_open 5 7] initial_globals) 0%nat)
    = Some (set_send_internal NULL loaded_globals) ∧
  run friendly (transmit_cb 64512 33 44 (set_send_internal NULL loaded_globals)) 9%nat
    = (Aborts AssertionFailed, [], 9%nat).
Proof.
  assert (final_globals
            (run friendly (enter_all [Call_vendor_open 5 7] initial_globals) 0%nat)
          = Some (set_send_internal NULL loaded_globals)) as Hg by reflexivity.
  split; [exact Hg |].
  exact (transmit_needs_a_sender friendly _ 0%nat 9%nat _ 64512 33 44 Hg eq_refl).
Defined.

Lemma open_again_witness :
  lib_handle initial_globals = NULL ∧
  run friendly (vendor_open 6 9 (set_send_internal NULL loaded_globals)) 4%nat
    = (Aborts AssertionFailed, [], 4%nat).
Proof.
  split; [reflexivity |].
  destruct (open_again friendly 5 7 6 9 initial_globals 0%nat eq_refl)
    as (b & g' & tr & w' & Hrun & Hagain & _).
  vm_compute in Hrun. simplify_eq. exact (Hagain eq_refl).
Defined.

Lemma close_releases_the_library_witness :
  is_Some
    (final_globals (run friendly (enter_all [Call_vendor_open 5 7] initial_globals) 0%nat)) ∧
  held_handles
    (trace_of
       (run friendly
          (enter_all ([Call_vendor_open 5 7] ++ [Call_vendor_close]) initial_globals)
          0%nat))
    = [].
Proof.
  assert (is_Some
            (final_globals
               (run friendly (enter_all [Call_vendor_open 5 7] initial_globals) 0%nat)))
    as Hg by (by eexists).
  split; [exact Hg |].
  destruct (close_releases_the_library friendly [Call_vendor_open 5 7] 0%nat Hg)
    as (g & _ & _ & _ & Hheld).
  exact Hheld.
Defined.

Lemma failure_is_logged_once_witness :
  lib_handle initial_globals = NULL ∧
  ∃ b g' tr w',
    run init_fails (vendor_open 5 7 initial_globals) 0%nat = (Returns (b, g'), tr, w') ∧
    length (error_lines tr) = (if b then 0 else 1)%nat ∧
    (length (dlerror_calls tr) + length (init_calls tr) = 1)%nat.
Proof.
  split; [reflexivity |].
  exact (failure_is_logged_once init_fails 5 7 initial_globals 0%nat eq_refl).
Defined.

Lemma close_cleans_up_then_unloads_witness :
  final_globals (run friendly (enter_all [Call_vendor_open 5 7] initial_globals) 0%nat)
    = Some (set_send_internal NULL loaded_globals) ∧
  (trace_of (run friendly (vendor_close (set_send_internal NULL loaded_globals)) 4%nat)).*1
    = [VendorCleanup 8192; Dlclose 4096].
Proof.
  assert (final_globals
            (run friendly (enter_all [Call_vendor_open 5 7] initial_globals) 0%nat)
          = Some (set_send_internal NULL loaded_globals)) as Hg by reflexivity.
  split; [exact Hg |].
  exact (close_cleans_up_then_unloads friendly _ 0%nat 4%nat _ Hg).
Defined.

Lemma forwarding_writes_nothing_witness :
  writes_variables (Call_lib_callback fn_epilog_cb 0 0 0) = false ∧
  final_globals
    (run friendly (enter (Call_lib_callback fn_epilog_cb 0 0 0) busy_globals) 0%nat)
    = Some busy_globals ∧
  busy_globals = busy_globals.
Proof.
  assert (final_globals
            (run friendly (enter (Call_lib_callback fn_epilog_cb 0 0 0) busy_globals)
               0%nat)
          = Some busy_globals) as Hg by reflexivity.
  split; [reflexivity |]. split; [exact Hg |].
  exact (forwarding_writes_nothing friendly (Call_lib_callback fn_epilog_cb 0 0 0)
           busy_globals busy_globals 0%nat eq_refl Hg).
Defined.

End Examples.
